(** * Conditioning encoders of LD-ZNet (ldm_seg/modules/encoders/modules.py)

    A shallow embedding of the adapter classes of the module and the
    properties of their [encode], [freeze] and constructor contracts.

    Conventions of the embedding:
    - a Python [int] is a [Z]; a Python [float] is an exact real ([R]) or,
      where it is only a scale factor, an exact rational ([Q]);
    - a tensor is its shape together with an indexing function;
    - a call that raises is [None] in the error monad [option];
    - an [nn.Module] is a tree of modules carrying a training flag,
      parameters and buffers;
    - the numeric kernels of the pretrained networks and of the tensor
      library are uninterpreted functions: only what the adapter code itself
      decides (shapes, order of the calls, flags, failure) is modelled. *)

From Stdlib Require Import ZArith QArith Qround Reals Lra Lia List String Ascii Bool.
Import ListNotations.

Set Warnings "-register-all".

Local Open Scope Z_scope.
Local Open Scope list_scope.

(** ** The error monad *)

Definition bind {A B : Type} (m : option A) (k : A -> option B) : option B :=
  match m with
  | Some a => k a
  | None => None
  end.

Notation "x <- m ;; k" := (bind m (fun x => k))
  (at level 61, m at next level, right associativity).

(** ** Tensors *)

Record Tensor (A : Type) : Type := mkTensor {
  shape : list Z;
  get : list Z -> A
}.
Arguments mkTensor {A} _ _.
Arguments shape {A} _.
Arguments get {A} _ _.

Definition ndim {A} (t : Tensor A) : Z := Z.of_nat (List.length (shape t)).

(** ** nn.Module trees *)

Record Param : Type := mkParam {
  p_name : string;
  p_data : Z;
  requires_grad : bool
}.

Record Buffer : Type := mkBuffer {
  b_name : string;
  b_value : list R;
  persistent : bool
}.

Inductive Module : Type :=
| mkModule (name : string) (training : bool) (params : list Param)
           (buffers : list Buffer) (children : list Module).

Definition m_name (m : Module) : string :=
  match m with mkModule n _ _ _ _ => n end.

Definition m_training (m : Module) : bool :=
  match m with mkModule _ t _ _ _ => t end.

Definition m_children (m : Module) : list Module :=
  match m with mkModule _ _ _ _ cs => cs end.

(** A module registered under the attribute name [n] of its parent. *)
Definition named (n : string) (m : Module) : Module :=
  match m with mkModule _ t ps bs cs => mkModule n t ps bs cs end.

(** [nn.Module.eval()]: [train(False)] on the module and all descendants. *)
Fixpoint eval (m : Module) : Module :=
  match m with
  | mkModule n _ ps bs cs => mkModule n false ps bs (map eval cs)
  end.

(** [nn.Module.parameters()]: own parameters, then those of the children. *)
Fixpoint parameters (m : Module) : list Param :=
  match m with
  | mkModule _ _ ps _ cs => ps ++ flat_map parameters cs
  end.

(** All training flags of the tree, the root first. *)
Fixpoint training_flags (m : Module) : list bool :=
  match m with
  | mkModule _ t _ _ cs => t :: flat_map training_flags cs
  end.

Definition set_requires_grad (b : bool) (p : Param) : Param :=
  mkParam (p_name p) (p_data p) b.

(** The loop [for param in m.parameters(): param.requires_grad = b]. *)
Fixpoint for_parameters_set_requires_grad (b : bool) (m : Module) : Module :=
  match m with
  | mkModule n t ps bs cs =>
      mkModule n t (map (set_requires_grad b) ps) bs
               (map (for_parameters_set_requires_grad b) cs)
  end.

(** [state_dict()] keys: parameters and persistent buffers, children under
    their dotted prefix. *)
Fixpoint state_dict_keys (prefix : string) (m : Module) : list string :=
  match m with
  | mkModule _ _ ps bs cs =>
      map (fun p => (prefix ++ p_name p)%string) ps
      ++ map (fun b => (prefix ++ b_name b)%string) (filter persistent bs)
      ++ flat_map (fun c => state_dict_keys (prefix ++ m_name c ++ ".")%string c) cs
  end.

Definition in_eval_mode (m : Module) : Prop :=
  Forall (fun t => t = false) (training_flags m).

Definition all_frozen (m : Module) : Prop :=
  Forall (fun p => requires_grad p = false) (parameters m).

(** ** Tokenizers of the transformers library *)

Record PreTrainedTokenizer : Type := mkTokenizer {
  encode_raw : string -> list Z;     (* subword ids, no special tokens *)
  prefix_tokens : list Z;            (* e.g. [CLS] *)
  suffix_tokens : list Z;            (* e.g. [SEP] or </s> *)
  pad_token_id : Z
}.

Inductive PaddingStrategy : Type := DoNotPad | PadLongest | PadMaxLength.

(** The keyword arguments of [tokenizer(text, ...)] the module uses. *)
Record TokenizerKwargs : Type := mkKwargs {
  truncation : bool;
  max_length : option Z;
  padding : PaddingStrategy
}.

Record BatchEncoding : Type := mkBatchEncoding {
  input_ids : Tensor Z
}.

Fixpoint mapM {A B : Type} (f : A -> option B) (l : list A) : option (list B) :=
  match l with
  | [] => Some []
  | a :: l' => b <- f a ;; bs <- mapM f l' ;; Some (b :: bs)
  end.

Definition num_special_tokens (tok : PreTrainedTokenizer) : Z :=
  Z.of_nat (List.length (prefix_tokens tok) + List.length (suffix_tokens tok)).

(** Truncation keeps room for the special tokens; a [max_length] too small
    to hold them is not a usable configuration and counts as a failure. *)
Definition truncate_ids (tok : PreTrainedTokenizer) (kw : TokenizerKwargs)
    (ids : list Z) : option (list Z) :=
  match truncation kw, max_length kw with
  | true, Some m =>
      if m <? num_special_tokens tok then None
      else Some (firstn (Z.to_nat (m - num_special_tokens tok)) ids)
  | _, _ => Some ids
  end.

Definition encode_one (tok : PreTrainedTokenizer) (kw : TokenizerKwargs)
    (s : string) : option (list Z) :=
  ids <- truncate_ids tok kw (encode_raw tok s) ;;
  Some (prefix_tokens tok ++ ids ++ suffix_tokens tok).

Definition pad_to (pad : Z) (n : nat) (row : list Z) : list Z :=
  row ++ repeat pad (n - List.length row).

Definition pad_batch (tok : PreTrainedTokenizer) (kw : TokenizerKwargs)
    (rows : list (list Z)) : list (list Z) :=
  match padding kw with
  | DoNotPad => rows
  | PadLongest =>
      map (pad_to (pad_token_id tok) (list_max (map (@List.length Z) rows))) rows
  | PadMaxLength =>
      match max_length kw with
      | Some m => map (pad_to (pad_token_id tok) (Z.to_nat m)) rows
      | None => rows
      end
  end.

(** [return_tensors="pt"]: a batch of rows of one common length becomes a
    (B, L) tensor; ragged rows cannot be stacked. *)
Definition tensor_of_rows (rows : list (list Z)) : option (Tensor Z) :=
  match rows with
  | [] => None
  | r :: _ =>
      if forallb (fun r' => Nat.eqb (List.length r') (List.length r)) rows
      then Some (mkTensor [Z.of_nat (List.length rows); Z.of_nat (List.length r)]
                   (fun idx => match idx with
                               | [b; i] => nth (Z.to_nat i) (nth (Z.to_nat b) rows []) 0
                               | _ => 0
                               end))
      else None
  end.

Definition tokenizer_call (tok : PreTrainedTokenizer) (kw : TokenizerKwargs)
    (text : list string) : option BatchEncoding :=
  rows <- mapM (encode_one tok kw) text ;;
  ids <- tensor_of_rows (pad_batch tok kw rows) ;;
  Some (mkBatchEncoding ids).

(** [tensor.to(device)] keeps shape and values; placement is not tracked. *)
Definition to_device {A} (t : Tensor A) (device : string) : Tensor A := t.

(** ** Pretrained networks of the transformers library *)

(** A pretrained text network: its module tree, its hidden size, the limit of
    its learned position table (none for relative positions) and its forward
    kernel, which gives the value at an index of the last hidden state. *)
Record PreTrainedModel : Type := mkPreTrainedModel {
  net : Module;
  hidden_size : Z;
  max_position_embeddings : option Z;
  last_hidden_state_kernel : Tensor Z -> list Z -> R
}.

Definition with_net (m : PreTrainedModel) (n : Module) : PreTrainedModel :=
  mkPreTrainedModel n (hidden_size m) (max_position_embeddings m)
                    (last_hidden_state_kernel m).

(** A tensor produced by a network, with its autograd flag. *)
Record Traced : Type := mkTraced {
  value : Tensor R;
  tracked : bool        (* output.requires_grad *)
}.

(** [model(input_ids=tokens).last_hidden_state] under the ambient grad mode. *)
Definition model_call (m : PreTrainedModel) (grad_enabled : bool)
    (tokens : Tensor Z) : option Traced :=
  match shape tokens with
  | [b; l] =>
      let fits := match max_position_embeddings m with
                  | Some n => l <=? n
                  | None => true
                  end in
      if fits
      then Some (mkTraced
                   (mkTensor [b; l; hidden_size m] (last_hidden_state_kernel m tokens))
                   (grad_enabled && existsb requires_grad (parameters (net m))))
      else None
  | _ => None
  end.

(** ** The CLIP package *)

Record ClipModel : Type := mkClipModel {
  clip_net : Module;
  embed_dim : Z;
  encode_text_kernel : Tensor Z -> list Z -> R;
  encode_image_kernel : Tensor R -> list Z -> R
}.

Definition clip_with_net (m : ClipModel) (n : Module) : ClipModel :=
  mkClipModel n (embed_dim m) (encode_text_kernel m) (encode_image_kernel m).

Definition sot_token : Z := 49406.
Definition eot_token : Z := 49407.

Definition list_to_row (width : nat) (tokens : list Z) : list Z :=
  tokens ++ repeat 0 (width - List.length tokens).

(** [clip.tokenize(texts, context_length=77, truncate=False)] over the
    package's byte-pair encoder [bpe]. *)
Definition clip_tokenize (bpe : string -> list Z) (texts : list string)
    (context_length : Z) (truncate : bool) : option (Tensor Z) :=
  let all_tokens := map (fun text => [sot_token] ++ bpe text ++ [eot_token]) texts in
  rows <- mapM (fun tokens =>
                  if Z.of_nat (List.length tokens) >? context_length
                  then if truncate
                       then Some (firstn (Z.to_nat context_length - 1) tokens ++ [eot_token])
                       else None   (* RuntimeError: input too long *)
                  else Some (list_to_row (Z.to_nat context_length) tokens))
               all_tokens ;;
  Some (mkTensor [Z.of_nat (List.length all_tokens); context_length]
          (fun idx => match idx with
                      | [b; i] => nth (Z.to_nat i) (nth (Z.to_nat b) rows []) 0
                      | _ => 0
                      end)).

(** [model.encode_text(tokens)]: one pooled vector per row of tokens. *)
Definition encode_text (m : ClipModel) (tokens : Tensor Z) : option (Tensor R) :=
  match shape tokens with
  | [b; _] => Some (mkTensor [b; embed_dim m] (encode_text_kernel m tokens))
  | _ => None
  end.

(** ** Tensor operations *)

Local Open Scope R_scope.

(** Sum of [f 0 .. f (n-1)]. *)
Fixpoint sum_upto (n : nat) (f : nat -> R) : R :=
  match n with
  | O => 0
  | S k => sum_upto k f + f k
  end.

Definition row_sum_sq (z : Tensor R) (d : Z) (b : Z) : R :=
  sum_upto (Z.to_nat d) (fun j => get z [b; Z.of_nat j] * get z [b; Z.of_nat j]).

(** [torch.linalg.norm(z, dim=1, keepdim=True)] of a (B, D) tensor. *)
Definition linalg_norm_dim1_keepdim (z : Tensor R) : option (Tensor R) :=
  match shape z with
  | [b; d] => Some (mkTensor [b; 1%Z]
                      (fun idx => match idx with
                                  | [i; _] => sqrt (row_sum_sq z d i)
                                  | _ => 0
                                  end))
  | _ => None
  end.

(** [z / n] with [n] of shape (B, 1) broadcast along the last axis. *)
Definition div_broadcast_rows (z n : Tensor R) : option (Tensor R) :=
  match shape z, shape n with
  | [b; d], [b'; 1%Z] =>
      if Z.eqb b b'
      then Some (mkTensor [b; d]
                   (fun idx => match idx with
                               | [i; j] => get z [i; j] / get n [i; 0%Z]
                               | _ => 0
                               end))
      else None
  | _, _ => None
  end.

(** [z[:, None, :]] of a 2-d tensor. *)
Definition unsqueeze_middle (z : Tensor R) : option (Tensor R) :=
  match shape z with
  | [b; d] => Some (mkTensor [b; 1%Z; d]
                      (fun idx => match idx with
                                  | [i; _; j] => get z [i; j]
                                  | _ => 0
                                  end))
  | _ => None
  end.

(** [einops.repeat(z, "b 1 d -> b k d", k=k)]. *)
Definition einops_repeat_b1d_bkd (z : Tensor R) (k : Z) : option (Tensor R) :=
  match shape z with
  | [b; 1%Z; d] =>
      if (k <? 0)%Z then None
      else Some (mkTensor [b; k; d]
                   (fun idx => match idx with
                               | [i; _; j] => get z [i; 0%Z; j]
                               | _ => 0
                               end))
  | _ => None
  end.

(** Pointwise map. *)
Definition tensor_map (f : R -> R) (x : Tensor R) : Tensor R :=
  mkTensor (shape x) (fun idx => f (get x idx)).

Local Close Scope R_scope.


(** ** Random numbers of the tensor library *)

(** The generator: a sequence of raw words and the position reached. *)
Record Generator : Type := mkGenerator {
  words : nat -> Z;
  position : nat
}.


(** [torch.randint(low, high, (n,))]: each element is [low] plus a raw word
    reduced modulo [high - low]; an empty range is rejected. *)
Definition randint (low high n : Z) (g : Generator) : option (Tensor Z * Generator) :=
  if high <=? low then None
  else Some (mkTensor [n]
               (fun idx => match idx with
                           | [i] => low + (words g (position g + Z.to_nat i)) mod (high - low)
                           | _ => 0
                           end),
             mkGenerator (words g) (position g + Z.to_nat n)).

(** ** Diffusion model of the repository (ldm_seg.models.diffusion) *)

Record DiffusionOps : Type := mkDiffusionOps {
  (* q_sample(x_start, t, noise): closed-form forward diffusion *)
  q_sample : Tensor R -> Tensor Z -> Tensor R -> Tensor R;
  (* apply_model(x_noisy, t, cond): (prediction, recorded features) *)
  apply_model : Tensor R -> Tensor Z -> Tensor R -> Tensor R * list (Tensor R)
}.

Record LatentDiffusion : Type := mkLatentDiffusion {
  ld_net : Module;
  ld_ops : DiffusionOps;          (* with the training weights *)
  ld_ema_ops : DiffusionOps       (* inside [ema_scope()] *)
}.

(** ** Convolution and interpolation *)

Record Conv2d : Type := mkConv2d {
  in_channels : Z;
  out_channels : Z;
  kernel_size : Z;
  has_bias : bool
}.

(** [nn.Conv2d(i, o, k, bias=bias)]: the weight tensor cannot have a negative
    dimension. *)
Definition Conv2d_init (i o k : Z) (bias : bool) : option Conv2d :=
  if (i <? 0) || (o <? 0) then None else Some (mkConv2d i o k bias).

(** Number of spatial axes each interpolation mode accepts. *)
Definition mode_supports (mode : string) (spatial : nat) : bool :=
  if String.eqb mode "nearest" then (1 <=? spatial)%nat && (spatial <=? 3)%nat
  else if String.eqb mode "area" then (1 <=? spatial)%nat && (spatial <=? 3)%nat
  else if String.eqb mode "linear" then (spatial =? 1)%nat
  else if String.eqb mode "bilinear" then (spatial =? 2)%nat
  else if String.eqb mode "bicubic" then (spatial =? 2)%nat
  else if String.eqb mode "trilinear" then (spatial =? 3)%nat
  else false.

(** Output size of one axis: [floor(size * scale_factor)]. *)
Definition scaled_size (scale_factor : Q) (size : Z) : Z :=
  Qfloor (inject_Z size * scale_factor).

Definition range (n : Z) : list Z := map Z.of_nat (seq 0 (Z.to_nat n)).

(** [k] successive applications of a step that may fail. *)
Fixpoint passes {A} (k : nat) (step : A -> option A) (x : A) : option A :=
  match k with
  | O => Some x
  | S k' => y <- step x ;; passes k' step y
  end.

(** The row [tokenizer(text, truncation=True, max_length=m,
    padding="max_length")] builds for one string: the ids cut to leave room
    for the special tokens, the special tokens, then the padding. *)
Definition fixed_length_row (tok : PreTrainedTokenizer) (m : Z) (s : string)
  : list Z :=
  pad_to (pad_token_id tok) (Z.to_nat m)
    (prefix_tokens tok
     ++ firstn (Z.to_nat (m - num_special_tokens tok)) (encode_raw tok s)
     ++ suffix_tokens tok).

(** Number of positions of that row that hold real tokens. *)
Definition true_token_count (tok : PreTrainedTokenizer) (m : Z) (s : string) : Z :=
  Z.min m (num_special_tokens tok + Z.of_nat (List.length (encode_raw tok s))).

(** ** Sample objects

    Small concrete stand-ins for the pretrained artefacts, on which the
    definitions can be run. *)

(** One id per character. *)
Definition char_level_encoder (s : string) : list Z :=
  map (fun ch => Z.of_nat (nat_of_ascii ch)) (list_ascii_of_string s).

(** One id per blank-separated word: a byte-pair encoder never gives a word
    fewer tokens than that. *)
Fixpoint word_level_encoder_from (in_word : bool) (s : string) : list Z :=
  match s with
  | EmptyString => []
  | String ch s' =>
      if Ascii.eqb ch " " then word_level_encoder_from false s'
      else if in_word then word_level_encoder_from true s'
      else 320 :: word_level_encoder_from true s'
  end.

Definition word_level_encoder (s : string) : list Z :=
  word_level_encoder_from false s.

Fixpoint repeat_string (n : nat) (s : string) : string :=
  match n with
  | O => EmptyString
  | S k => (s ++ repeat_string k s)%string
  end.

(** A caption of 76 one-letter words. *)
Definition long_caption : string := repeat_string 76 "a ".

Definition sample_net : Module :=
  mkModule "net" true [mkParam "weight" 1 true] []
    [mkModule "layer" true [mkParam "bias" 2 true] [] []].

Definition sample_clip_model : ClipModel :=
  mkClipModel sample_net 4 (fun _ _ => 1%R) (fun _ _ => 0%R).

Definition sample_clip_load (name device : string) (jit : bool) : ClipModel :=
  sample_clip_model.

Definition sample_text_model (name : string) : PreTrainedModel :=
  mkPreTrainedModel sample_net 4 (Some 77) (fun _ _ => 0%R).

Definition sample_transformer_kernel (num_tokens max_seq_len dim depth : Z)
    (dropout : R) (tokens : Tensor Z) (idx : list Z) : R := 0%R.

Definition sample_interpolate_kernel (mode : string) (scale : Q) (x : Tensor R)
    (idx : list Z) : R := 0%R.

Definition sample_conv2d_kernel (conv : Conv2d) (x : Tensor R) (idx : list Z) : R :=
  0%R.

Definition sample_resize_kernel (size : Z * Z) (interpolation : string)
    (align_corners antialias : bool) (x : Tensor R) (idx : list Z) : R := 0%R.


Definition sample_generator : Generator :=
  mkGenerator (fun n => 37 * Z.of_nat n + 11) 0.

Definition sample_image : Tensor R := mkTensor [2; 3; 64; 48] (fun _ => 0%R).

Definition sample_latent : Tensor R := mkTensor [2; 4; 8; 8] (fun _ => 0%R).


Definition sample_diffusion : LatentDiffusion :=
  let ops := mkDiffusionOps (fun x t noise => x)
                            (fun x t c => (x, [x; c])) in
  mkLatentDiffusion sample_net ops ops.


(** ** Dictionaries, indices and checkpoints *)

(** [d[k]] of a dictionary given by its bindings. *)
Definition dict_lookup {V : Type} (d : list (string * V)) (k : string) : option V :=
  option_map snd (find (fun kv => String.eqb (fst kv) k) d).

(** All indices of a tensor of the given shape, in row-major order. *)
Definition all_indices (dims : list Z) : list (list Z) :=
  fold_right (fun d acc => flat_map (fun i => map (cons i) acc) (range d)) [[]] dims.

(** [x[:, None]]: a new axis of size 1 after the first one. *)
Definition index_all_none (x : Tensor Z) : option (Tensor Z) :=
  match shape x with
  | b :: rest =>
      Some (mkTensor (b :: 1 :: rest)
              (fun idx => match idx with
                          | i :: _ :: r => get x (i :: r)
                          | _ => 0
                          end))
  | [] => None
  end.

(** What [torch.load] gives for a Lightning checkpoint: a dictionary whose
    entries the module reads are the step counter and the state dict (each
    saved tensor stood for by the identifier of its data). *)
Inductive CheckpointEntry : Type :=
| GlobalStep (n : Z)
| StateDict (sd : list (string * Z))
| OtherEntry.

Definition Checkpoint : Type := list (string * CheckpointEntry).

(** [del m.name] on a module given with the names of its plain attributes
    (those that are neither parameters, buffers nor submodules): the
    submodule registered under [name] is removed, or else the plain attribute
    of that name; there must be one.  Parameters and buffers are not looked
    at: the module deletes none. *)
Definition del_attribute (name : string) (ma : Module * list string)
  : option (Module * list string) :=
  let (m, attrs) := ma in
  match m with
  | mkModule n t ps bs cs =>
      if existsb (fun c => String.eqb (m_name c) name) cs
      then Some (mkModule n t ps bs
                   (filter (fun c => negb (String.eqb (m_name c) name)) cs),
                 attrs)
      else if existsb (String.eqb name) attrs
           then Some (m, filter (fun a => negb (String.eqb a name)) attrs)
           else None
  end.

Definition child_names (m : Module) : list string := map m_name (m_children m).

(** More sample objects. *)

Definition sample_embedding_weight (n d row col : Z) : R := IZR (10 * row + col).

Definition sample_class_batch : list (string * Tensor Z) :=
  [("image", mkTensor [3] (fun _ => 0));
   ("class", mkTensor [3] (fun idx => match idx with
                                      | [i] => 2 * i + 1
                                      | _ => 0
                                      end))]%string.

Definition sample_ldm_net : Module :=
  mkModule "ldm" true [mkParam "logvar" 0 true] []
    [mkModule "model" true [mkParam "weight" 1 true] [] [];
     mkModule "first_stage_model" true [mkParam "weight" 2 true] [] [];
     mkModule "cond_stage_model" true [mkParam "weight" 3 true] [] []].

Definition sample_ldm : LatentDiffusion :=
  mkLatentDiffusion sample_ldm_net (ld_ops sample_diffusion)
                    (ld_ema_ops sample_diffusion).

Definition sample_checkpoint : Checkpoint :=
  [("global_step", GlobalStep 470000);
   ("state_dict", StateDict [("model.weight", 7); ("model_ema.decay", 8)])]%string.


Definition sample_omegaconf_load (p : string) : option string :=
  if String.eqb p "v1-inference.yaml" then Some p else None.

Definition sample_torch_load (p : string) : option Checkpoint :=
  Some sample_checkpoint.

Definition sample_instantiate (cfg : string)
  : option (LatentDiffusion * list string) :=
  Some (sample_ldm, ["use_ema"; "scale_factor"]%string).

Definition sample_load_state_dict (m : LatentDiffusion) (sd : list (string * Z))
  : option (LatentDiffusion * (list string * list string)) :=
  Some (m, (["logvar"; "first_stage_model.weight"; "cond_stage_model.weight"],
            ["model_ema.decay"]))%string.

Definition sample_clip_tokenizer (version : string) : PreTrainedTokenizer :=
  mkTokenizer char_level_encoder [49406] [49407] 49407.


Section Encoders.

(** *** What the module takes from its environment *)

(** Subword encoders of the pretrained tokenizers. *)
Variable bert_wordpiece : string -> list Z.
Variable t5_sentencepiece : string -> list Z.
Variable clip_bpe : string -> list Z.

(** The model hub and loaders. *)
Variable CLIPTokenizer_from_pretrained : string -> PreTrainedTokenizer.
Variable CLIPTextModel_from_pretrained : string -> PreTrainedModel.
Variable T5EncoderModel_from_pretrained : string -> PreTrainedModel.
Variable clip_load : string -> string -> bool -> ClipModel.   (* name, device, jit *)

(** Numeric kernels of the tensor libraries. *)
Variable interpolate_kernel : string -> Q -> Tensor R -> list Z -> R.
Variable conv2d_kernel : Conv2d -> Tensor R -> list Z -> R.
Variable resize_kernel : Z * Z -> string -> bool -> bool -> Tensor R -> list Z -> R.
Variable normal_kernel : Generator -> list Z -> R.

(** Freshly initialised weights of a transformer stack:
    num_tokens, max_seq_len, dim, depth, emb_dropout. *)
Variable transformer_init_kernel : Z -> Z -> Z -> Z -> R -> Tensor Z -> list Z -> R.


(** [torch.nn.functional.interpolate(x, scale_factor=s, mode=mode)] *)
Definition interpolate (x : Tensor R) (scale_factor : Q) (mode : string)
  : option (Tensor R) :=
  match shape x with
  | b :: c :: spatial =>
      let out := map (scaled_size scale_factor) spatial in
      if mode_supports mode (List.length spatial)
         && (0 <? c) && forallb (Z.ltb 0) spatial && forallb (Z.ltb 0) out
      then Some (mkTensor (b :: c :: out) (interpolate_kernel mode scale_factor x))
      else None
  | _ => None
  end.

(** [conv(x)] for a convolution without padding and with stride 1. *)
Definition Conv2d_forward (conv : Conv2d) (x : Tensor R) : option (Tensor R) :=
  match shape x with
  | [b; c; h; w] =>
      if c =? in_channels conv
      then Some (mkTensor [b; out_channels conv;
                           h - kernel_size conv + 1; w - kernel_size conv + 1]
                          (conv2d_kernel conv x))
      else None
  | [c; h; w] =>
      if c =? in_channels conv
      then Some (mkTensor [out_channels conv;
                           h - kernel_size conv + 1; w - kernel_size conv + 1]
                          (conv2d_kernel conv x))
      else None
  | _ => None
  end.

(** [kornia.geometry.resize(x, size, interpolation, align_corners, antialias)]:
    the last two axes are resized. *)
Definition kornia_resize (x : Tensor R) (size : Z * Z) (interpolation : string)
    (align_corners antialias : bool) : option (Tensor R) :=
  match rev (shape x) with
  | w :: h :: lead =>
      if (0 <? h) && (0 <? w)
      then Some (mkTensor (rev lead ++ [fst size; snd size])
                   (resize_kernel size interpolation align_corners antialias x))
      else None
  | _ => None
  end.

(** [kornia.enhance.normalize(x, mean, std)]: per channel (second axis). *)
Definition kornia_normalize (x : Tensor R) (mean std : list R) : option (Tensor R) :=
  match shape x with
  | _ :: c :: _ =>
      if (c =? Z.of_nat (List.length mean)) && (c =? Z.of_nat (List.length std))
      then Some (mkTensor (shape x)
                   (fun idx => match idx with
                               | _ :: ch :: _ =>
                                   ((get x idx - nth (Z.to_nat ch) mean 0%R)
                                    / nth (Z.to_nat ch) std 0%R)%R
                               | _ => 0%R
                               end))
      else None
  | _ => None
  end.

(** [model.encode_image(x)] *)
Definition encode_image (m : ClipModel) (x : Tensor R) : option (Tensor R) :=
  match shape x with
  | b :: _ => Some (mkTensor [b; embed_dim m] (encode_image_kernel m x))
  | _ => None
  end.

(** *** TransformerWrapper (ldm_seg.modules.x_transformer) *)

Record Encoder : Type := mkEncoder {
  enc_dim : Z;
  enc_depth : Z
}.

Record TransformerWrapper : Type := mkTransformerWrapper {
  tw_num_tokens : Z;
  tw_max_seq_len : Z;
  tw_attn_layers : Encoder;
  tw_emb_dropout : R;
  tw_kernel : Tensor Z -> list Z -> R
}.

Definition TransformerWrapper_init (num_tokens max_seq_len : Z)
    (attn_layers : Encoder) (emb_dropout : R) : TransformerWrapper :=
  mkTransformerWrapper num_tokens max_seq_len attn_layers emb_dropout
    (transformer_init_kernel num_tokens max_seq_len (enc_dim attn_layers)
       (enc_depth attn_layers) emb_dropout).

(** Modelled from the spec: the forward pass of [TransformerWrapper], whose
    source is in ldm_seg/modules/x_transformer.py.  It takes a (B, L) tensor
    of token ids through the stack and returns per-position embeddings of the
    stack's dimension (the logits over the vocabulary when embeddings are not
    asked for); it fails if the sequence is longer than [max_seq_len]. *)
Definition TransformerWrapper_forward (tw : TransformerWrapper)
    (tokens : Tensor Z) (return_embeddings : bool) : option (Tensor R) :=
  match shape tokens with
  | [b; l] =>
      if l <=? tw_max_seq_len tw
      then Some (mkTensor
                   [b; l; if return_embeddings then enc_dim (tw_attn_layers tw)
                          else tw_num_tokens tw]
                   (tw_kernel tw tokens))
      else None
  | _ => None
  end.

(** *** BERTTokenizer *)

(** [BertTokenizerFast.from_pretrained("bert-base-uncased")]:
    [CLS] = 101, [SEP] = 102, [PAD] = 0. *)
Definition bert_base_uncased : PreTrainedTokenizer :=
  mkTokenizer bert_wordpiece [101] [102] 0.

Record BERTTokenizer : Type := mkBERTTokenizer {
  bt_tokenizer : PreTrainedTokenizer;
  bt_device : string;
  bt_vq_interface : bool;
  bt_max_length : Z
}.

Definition BERTTokenizer_init (device : string) (vq_interface : bool)
    (max_length : Z) : BERTTokenizer :=
  mkBERTTokenizer bert_base_uncased device vq_interface max_length.

(** [return_length=True] and [return_overflowing_tokens=False] do not touch
    [input_ids]; [return_tensors="pt"] is the stacking [tokenizer_call] ends
    with. *)
Definition BERTTokenizer_forward (self : BERTTokenizer) (text : list string)
  : option (Tensor Z) :=
  batch_encoding <- tokenizer_call (bt_tokenizer self)
                      (mkKwargs true (Some (bt_max_length self)) PadMaxLength) text ;;
  let tokens := to_device (input_ids batch_encoding) (bt_device self) in
  Some tokens.

(** What [encode] returns: the tokens, or the (quantized, loss, info) triple
    [None, None, [None, None, tokens]]. *)
Inductive BERTTokenizer_encoded : Type :=
| Tokens (tokens : Tensor Z)
| VQTriple (quantized : option (Tensor Z)) (loss : option (Tensor Z))
           (info : list (option (Tensor Z))).

Definition BERTTokenizer_encode (self : BERTTokenizer) (text : list string)
  : option BERTTokenizer_encoded :=
  tokens <- BERTTokenizer_forward self text ;;
  if negb (bt_vq_interface self) then Some (Tokens tokens)
  else Some (VQTriple None None [None; None; Some tokens]).

(** *** BERTEmbedder *)

(** The argument of [forward]: raw strings, or token ids when the instance
    was built without its tokenizer. *)
Inductive TextInput : Type :=
| Strings (text : list string)
| TokenIds (tokens : Tensor Z).

Record BERTEmbedder : Type := mkBERTEmbedder {
  be_use_tknz_fn : bool;
  be_tknz_fn : option BERTTokenizer;
  be_device : string;
  be_transformer : TransformerWrapper
}.

Definition BERTEmbedder_init (n_embed n_layer vocab_size max_seq_len : Z)
    (device : string) (use_tokenizer : bool) (embedding_dropout : R)
  : BERTEmbedder :=
  mkBERTEmbedder use_tokenizer
    (if use_tokenizer then Some (BERTTokenizer_init "cuda" false max_seq_len) else None)
    device
    (TransformerWrapper_init vocab_size max_seq_len (mkEncoder n_embed n_layer)
                             embedding_dropout).

Definition BERTEmbedder_forward (self : BERTEmbedder) (text : TextInput)
  : option (Tensor R) :=
  tokens <- (if be_use_tknz_fn self
             then match be_tknz_fn self, text with
                  | Some tknz_fn, Strings t => BERTTokenizer_forward tknz_fn t
                  | _, _ => None
                  end
             else match text with
                  | TokenIds t => Some t
                  | Strings _ => None
                  end) ;;
  TransformerWrapper_forward (be_transformer self) tokens true.

Definition BERTEmbedder_encode (self : BERTEmbedder) (text : TextInput)
  : option (Tensor R) :=
  BERTEmbedder_forward self text.

(** *** SpatialRescaler *)

Definition valid_methods : list string :=
  ["nearest"; "linear"; "bilinear"; "trilinear"; "bicubic"; "area"]%string.

Record SpatialRescaler : Type := mkSpatialRescaler {
  sr_n_stages : Z;
  sr_multiplier : Q;
  sr_interpolator_mode : string;     (* partial(interpolate, mode=method) *)
  sr_remap_output : bool;
  sr_channel_mapper : option Conv2d
}.

Definition SpatialRescaler_init (n_stages : Z) (method : string) (multiplier : Q)
    (in_ch : Z) (out_ch : option Z) (bias : bool) : option SpatialRescaler :=
  (* assert self.n_stages >= 0 *)
  if negb (n_stages >=? 0) then None
  (* assert method in [...] *)
  else if negb (existsb (String.eqb method) valid_methods) then None
  else
    match out_ch with
    | None => Some (mkSpatialRescaler n_stages multiplier method false None)
    | Some oc =>
        conv <- Conv2d_init in_ch oc 1 bias ;;
        Some (mkSpatialRescaler n_stages multiplier method true (Some conv))
    end.

Definition SpatialRescaler_forward (self : SpatialRescaler) (x : Tensor R)
  : option (Tensor R) :=
  x <- fold_left
         (fun (acc : option (Tensor R)) (stage : Z) =>
            x <- acc ;;
            interpolate x (sr_multiplier self) (sr_interpolator_mode self))
         (range (sr_n_stages self)) (Some x) ;;
  if sr_remap_output self
  then conv <- sr_channel_mapper self ;; Conv2d_forward conv x
  else Some x.

Definition SpatialRescaler_encode (self : SpatialRescaler) (x : Tensor R)
  : option (Tensor R) :=
  SpatialRescaler_forward self x.

(** *** FrozenCLIPEmbedder *)

Record FrozenCLIPEmbedder : Type := mkFrozenCLIPEmbedder {
  fce_training : bool;
  fce_tokenizer : PreTrainedTokenizer;
  fce_transformer : PreTrainedModel;
  fce_device : string;
  fce_max_length : Z
}.

(** The instance seen as an [nn.Module]: its registered submodules. *)
Definition FrozenCLIPEmbedder_module (self : FrozenCLIPEmbedder) : Module :=
  mkModule EmptyString (fce_training self) [] []
           [named "transformer" (net (fce_transformer self))].

Definition FrozenCLIPEmbedder_freeze (self : FrozenCLIPEmbedder) : FrozenCLIPEmbedder :=
  (* self.transformer = self.transformer.eval() *)
  let transformer := with_net (fce_transformer self) (eval (net (fce_transformer self))) in
  (* for param in self.parameters(): param.requires_grad = False *)
  let transformer := with_net transformer
                       (for_parameters_set_requires_grad false (net transformer)) in
  mkFrozenCLIPEmbedder (fce_training self) (fce_tokenizer self) transformer
                       (fce_device self) (fce_max_length self).

Definition FrozenCLIPEmbedder_init (version device : string) (max_length : Z)
  : FrozenCLIPEmbedder :=
  let self := mkFrozenCLIPEmbedder true
                (CLIPTokenizer_from_pretrained version)
                (CLIPTextModel_from_pretrained version)
                device max_length in
  FrozenCLIPEmbedder_freeze self.

Definition FrozenCLIPEmbedder_forward (self : FrozenCLIPEmbedder)
    (text : list string) (grad_enabled : bool) : option Traced :=
  batch_encoding <- tokenizer_call (fce_tokenizer self)
                      (mkKwargs true (Some (fce_max_length self)) PadMaxLength) text ;;
  let tokens := to_device (input_ids batch_encoding) (fce_device self) in
  model_call (fce_transformer self) grad_enabled tokens.

(** *** FrozenT5Embedder *)

(** [T5Tokenizer.from_pretrained("google/t5-v1_1-xl")]: no prefix, the
    end-of-sequence id 1 appended, pad id 0. *)
Definition t5_v1_1_xl_tokenizer : PreTrainedTokenizer :=
  mkTokenizer t5_sentencepiece [] [1] 0.

Record FrozenT5Embedder : Type := mkFrozenT5Embedder {
  ft5_training : bool;
  ft5_tokenizer : PreTrainedTokenizer;
  ft5_transformer : PreTrainedModel;
  ft5_device : string;
  ft5_max_length : Z
}.

Definition FrozenT5Embedder_module (self : FrozenT5Embedder) : Module :=
  mkModule EmptyString (ft5_training self) [] []
           [named "transformer" (net (ft5_transformer self))].

Definition FrozenT5Embedder_freeze (self : FrozenT5Embedder) : FrozenT5Embedder :=
  let transformer := with_net (ft5_transformer self) (eval (net (ft5_transformer self))) in
  let transformer := with_net transformer
                       (for_parameters_set_requires_grad false (net transformer)) in
  mkFrozenT5Embedder (ft5_training self) (ft5_tokenizer self) transformer
                     (ft5_device self) (ft5_max_length self).

(** [T5EncoderModel.from_pretrained("google/t5-v1_1-xl")]: T5 uses relative
    position biases, so it has no position table to overrun. *)
Definition t5_v1_1_xl_encoder : PreTrainedModel :=
  let m := T5EncoderModel_from_pretrained "google/t5-v1_1-xl" in
  mkPreTrainedModel (net m) (hidden_size m) None (last_hidden_state_kernel m).

Definition FrozenT5Embedder_init (device : string) (max_length : Z)
  : FrozenT5Embedder :=
  let self := mkFrozenT5Embedder true t5_v1_1_xl_tokenizer t5_v1_1_xl_encoder
                device max_length in
  FrozenT5Embedder_freeze self.

(** [forward] takes the ambient grad mode and gives it back with the
    result: the body runs under [torch.no_grad()]. *)
Definition FrozenT5Embedder_forward (self : FrozenT5Embedder)
    (text : list string) (grad_enabled : bool) : option (Traced * bool) :=
  let no_grad := false in
  z <- (batch_encoding <- tokenizer_call (ft5_tokenizer self)
                            (mkKwargs false None DoNotPad) text ;;
        let tokens := to_device (input_ids batch_encoding) (ft5_device self) in
        model_call (ft5_transformer self) no_grad tokens) ;;
  Some (z, grad_enabled).

Definition FrozenT5Embedder_encode (self : FrozenT5Embedder)
    (text : list string) (grad_enabled : bool) : option (Traced * bool) :=
  FrozenT5Embedder_forward self text grad_enabled.

(** *** FrozenCLIPTextEmbedder *)

Record FrozenCLIPTextEmbedder : Type := mkFrozenCLIPTextEmbedder {
  fcte_training : bool;
  fcte_model : ClipModel;
  fcte_device : string;
  fcte_max_length : Z;
  fcte_n_repeat : Z;
  fcte_normalize : bool
}.

Definition FrozenCLIPTextEmbedder_module (self : FrozenCLIPTextEmbedder) : Module :=
  mkModule EmptyString (fcte_training self) [] []
           [named "model" (clip_net (fcte_model self))].

Definition FrozenCLIPTextEmbedder_init (version device : string)
    (max_length n_repeat : Z) (normalize : bool) : FrozenCLIPTextEmbedder :=
  mkFrozenCLIPTextEmbedder true (clip_load version "cpu" false)
                           device max_length n_repeat normalize.

Definition FrozenCLIPTextEmbedder_freeze (self : FrozenCLIPTextEmbedder)
  : FrozenCLIPTextEmbedder :=
  let model := clip_with_net (fcte_model self) (eval (clip_net (fcte_model self))) in
  let model := clip_with_net model
                 (for_parameters_set_requires_grad false (clip_net model)) in
  mkFrozenCLIPTextEmbedder (fcte_training self) model (fcte_device self)
    (fcte_max_length self) (fcte_n_repeat self) (fcte_normalize self).

Definition FrozenCLIPTextEmbedder_forward (self : FrozenCLIPTextEmbedder)
    (text : list string) : option (Tensor R) :=
  tokens <- clip_tokenize clip_bpe text 77 false ;;
  let tokens := to_device tokens (fcte_device self) in
  z <- encode_text (fcte_model self) tokens ;;
  if fcte_normalize self
  then n <- linalg_norm_dim1_keepdim z ;; div_broadcast_rows z n
  else Some z.

Definition FrozenCLIPTextEmbedder_encode (self : FrozenCLIPTextEmbedder)
    (text : list string) : option (Tensor R) :=
  z <- FrozenCLIPTextEmbedder_forward self text ;;
  z <- (if ndim z =? 2 then unsqueeze_middle z else Some z) ;;
  einops_repeat_b1d_bkd z (fcte_n_repeat self).

(** *** FrozenClipImageEmbedder *)

Record FrozenClipImageEmbedder : Type := mkFrozenClipImageEmbedder {
  fie_training : bool;
  fie_model : ClipModel;
  fie_antialias : bool;
  fie_buffers : list Buffer
}.

(** [self.register_buffer(name, tensor, persistent=persistent)] *)
Definition register_buffer (self : FrozenClipImageEmbedder) (name : string)
    (tensor : list R) (persist : bool) : FrozenClipImageEmbedder :=
  mkFrozenClipImageEmbedder (fie_training self) (fie_model self) (fie_antialias self)
    (fie_buffers self ++ [mkBuffer name tensor persist]).

Definition clip_mean : list R := [0.48145466; 0.4578275; 0.40821073]%R.
Definition clip_std : list R := [0.26862954; 0.26130258; 0.27577711]%R.

Definition FrozenClipImageEmbedder_init (model : string) (jit : bool)
    (device : string) (antialias : bool) : FrozenClipImageEmbedder :=
  let self := mkFrozenClipImageEmbedder true (clip_load model device jit) antialias [] in
  let self := register_buffer self "mean" clip_mean false in
  let self := register_buffer self "std" clip_std false in
  self.

(** The signature's defaults: [jit=False], [antialias=False]. *)
Definition FrozenClipImageEmbedder_init_default (model device : string)
  : FrozenClipImageEmbedder :=
  FrozenClipImageEmbedder_init model false device false.

Definition FrozenClipImageEmbedder_module (self : FrozenClipImageEmbedder) : Module :=
  mkModule EmptyString (fie_training self) [] (fie_buffers self)
           [named "model" (clip_net (fie_model self))].

(** Attribute access to a registered buffer. *)
Definition get_buffer (self : FrozenClipImageEmbedder) (name : string)
  : option (list R) :=
  option_map b_value
    (find (fun b => String.eqb (b_name b) name) (fie_buffers self)).

Definition FrozenClipImageEmbedder_preprocess (self : FrozenClipImageEmbedder)
    (x : Tensor R) : option (Tensor R) :=
  x <- kornia_resize x (224, 224) "bicubic" true (fie_antialias self) ;;
  let x := tensor_map (fun v => ((v + 1.0) / 2.0)%R) x in
  mean <- get_buffer self "mean" ;;
  std <- get_buffer self "std" ;;
  kornia_normalize x mean std.

Definition FrozenClipImageEmbedder_forward (self : FrozenClipImageEmbedder)
    (x : Tensor R) : option (Tensor R) :=
  x <- FrozenClipImageEmbedder_preprocess self x ;;
  encode_image (fie_model self) x.

(** *** FrozenSDUNet *)

Record FrozenSDUNet : Type := mkFrozenSDUNet {
  sdu_training : bool;
  sdu_ckpt_path : string;
  sdu_timesteps : option (list Z);
  sdu_model : LatentDiffusion
}.

Definition FrozenSDUNet_module (self : FrozenSDUNet) : Module :=
  mkModule EmptyString (sdu_training self) [] []
           [named "model" (ld_net (sdu_model self))].

Definition FrozenSDUNet_freeze (self : FrozenSDUNet) : FrozenSDUNet :=
  let m := sdu_model self in
  let model := mkLatentDiffusion (eval (ld_net m)) (ld_ops m) (ld_ema_ops m) in
  let model := mkLatentDiffusion
                 (for_parameters_set_requires_grad false (ld_net model))
                 (ld_ops model) (ld_ema_ops model) in
  mkFrozenSDUNet (sdu_training self) (sdu_ckpt_path self) (sdu_timesteps self) model.

(** [l[0]] and [l[-1]] of a list that may be missing or empty. *)
Definition first_item (l : option (list Z)) : option Z :=
  l <- l ;; hd_error l.
Definition last_item (l : option (list Z)) : option Z :=
  l <- l ;; hd_error (rev l).

(** The diffusion steps drawn by [forward]. *)
Definition FrozenSDUNet_draw_t (self : FrozenSDUNet) (z : Tensor R)
    (timestep : option Z) (g : Generator) : option (Tensor Z * Generator) :=
  match timestep with
  | None =>
      lo <- first_item (sdu_timesteps self) ;;
      hi <- last_item (sdu_timesteps self) ;;
      b <- hd_error (shape z) ;;
      randint lo hi b g
  | Some timestep =>
      b <- hd_error (shape z) ;;
      randint timestep (timestep + 1) b g
  end.



Definition sample_sdunet : FrozenSDUNet :=
  mkFrozenSDUNet true "sd-v1-4-full-ema.ckpt" (Some [0; 500; 1000]) sample_diffusion.


(** *** AbstractEncoder *)

(** [encode] of the base class raises [NotImplementedError]. *)
Definition AbstractEncoder_encode {A B : Type} (args : A) : option B := None.

(** *** ClassEmbedder *)

Record Embedding : Type := mkEmbedding {
  num_embeddings : Z;
  embedding_dim : Z;
  emb_weight : Z -> Z -> R           (* weight[row][column] *)
}.

(** Freshly initialised embedding table: num_embeddings, embedding_dim. *)
Variable embedding_init_weight : Z -> Z -> Z -> Z -> R.

(** [nn.Embedding(n, d)]: the table cannot have a negative dimension. *)
Definition Embedding_init (n d : Z) : option Embedding :=
  if (n <? 0) || (d <? 0) then None
  else Some (mkEmbedding n d (embedding_init_weight n d)).

(** [embedding(input)]: every index must be a row of the table; the result
    has one more axis, of size [embedding_dim]. *)
Definition Embedding_forward (e : Embedding) (input : Tensor Z) : option (Tensor R) :=
  if forallb (fun idx => (0 <=? get input idx) && (get input idx <? num_embeddings e))
             (all_indices (shape input))
  then Some (mkTensor (shape input ++ [embedding_dim e])
               (fun idx => emb_weight e (get input (removelast idx)) (last idx 0)))
  else None.

Record ClassEmbedder : Type := mkClassEmbedder {
  ce_key : string;
  ce_embedding : Embedding
}.

Definition ClassEmbedder_init (embed_dim n_classes : Z) (key : string)
  : option ClassEmbedder :=
  embedding <- Embedding_init n_classes embed_dim ;;
  Some (mkClassEmbedder key embedding).

Definition ClassEmbedder_forward (self : ClassEmbedder)
    (batch : list (string * Tensor Z)) (key : option string) : option (Tensor R) :=
  let key := match key with
             | None => ce_key self
             | Some k => k
             end in
  (* this is for use in crossattn *)
  c <- dict_lookup batch key ;;
  c <- index_all_none c ;;
  Embedding_forward (ce_embedding self) c.

(** *** TransformerEmbedder *)





(** *** BERTTokenizer.decode *)

Definition BERTTokenizer_decode {A : Type} (self : BERTTokenizer) (text : A) : A :=
  text.

(** *** FrozenCLIPEmbedder.encode *)

Definition FrozenCLIPEmbedder_encode (self : FrozenCLIPEmbedder)
    (text : list string) (grad_enabled : bool) : option Traced :=
  FrozenCLIPEmbedder_forward self text grad_enabled.

(** *** FrozenSDUNet: construction *)

(** The configuration file, the checkpoint file and the model factory. *)
Variable Config : Type.
Variable OmegaConf_load : string -> option Config.
Variable torch_load : string -> option Checkpoint.
(** [instantiate_from_config(config.model)]: the model, and the names of
    its plain attributes. *)
Variable instantiate_from_config : Config -> option (LatentDiffusion * list string).
(** [model.load_state_dict(sd, strict=False)]: the model with the matching
    entries copied in, and the missing and the unexpected keys; it still
    fails when a saved tensor does not fit the parameter of its key. *)
Variable load_state_dict_nonstrict :
  LatentDiffusion -> list (string * Z)
  -> option (LatentDiffusion * (list string * list string)).

Definition FrozenSDUNet_load_model_from_config (config : Config) (ckpt_path : string)
    (verbose : bool) : option (LatentDiffusion * list string) :=
  let ckpt := ckpt_path in
  pl_sd <- torch_load ckpt ;;
  (* if "global_step" in pl_sd: print(...) *)
  entry <- dict_lookup pl_sd "state_dict" ;;
  sd <- match entry with
        | StateDict sd => Some sd
        | _ => None
        end ;;
  instantiated <- instantiate_from_config config ;;
  let (model, attrs) := instantiated : LatentDiffusion * list string in
  loaded <- load_state_dict_nonstrict model sd ;;
  let (model, mu) := loaded : LatentDiffusion * (list string * list string) in
  (* missing and unexpected keys are only printed, and only if verbose *)
  Some (model, attrs).

Definition ld_with_net (m : LatentDiffusion) (n : Module) : LatentDiffusion :=
  mkLatentDiffusion n (ld_ops m) (ld_ema_ops m).

Definition FrozenSDUNet_init (path : string) (config : option string)
    (timesteps : option (list Z)) : option FrozenSDUNet :=
  (* OmegaConf.load(f"{config}") *)
  cfg <- OmegaConf_load (match config with
                         | Some p => p
                         | None => "None"
                         end) ;;
  loaded <- FrozenSDUNet_load_model_from_config cfg path false ;;
  let (model, attrs) := loaded : LatentDiffusion * list string in
  (* del self.model.first_stage_model, self.model.cond_stage_model *)
  na <- del_attribute "first_stage_model" (ld_net model, attrs) ;;
  na <- del_attribute "cond_stage_model" na ;;
  Some (FrozenSDUNet_freeze
          (mkFrozenSDUNet true path timesteps (ld_with_net model (fst na)))).


(** * Properties *)

(** ** Module trees *)

Lemma Module_nested_ind (P : Module -> Prop) :
  (forall n t ps bs cs, Forall P cs -> P (mkModule n t ps bs cs)) ->
  forall m, P m.
Proof.
  intros step. fix IH 1. intros [n t ps bs cs]. apply step.
  induction cs as [|c cs IHcs]; constructor; [apply IH | exact IHcs].
Qed.

Lemma flat_map_pointwise {A B} (f g : A -> list B) (l : list A) :
  Forall (fun a => f a = g a) l -> flat_map f l = flat_map g l.
Proof.
  induction 1 as [|a l Ha _ IH]; simpl; [reflexivity | now rewrite Ha, IH].
Qed.

Lemma flat_map_map {A B C} (f : A -> B) (g : B -> list C) (l : list A) :
  flat_map g (map f l) = flat_map (fun a => g (f a)) l.
Proof.
  induction l as [|a l IH]; simpl; [reflexivity | now rewrite IH].
Qed.

Lemma map_flat_map {A B C} (f : B -> C) (g : A -> list B) (l : list A) :
  map f (flat_map g l) = flat_map (fun a => map f (g a)) l.
Proof.
  induction l as [|a l IH]; simpl; [reflexivity | now rewrite map_app, IH].
Qed.

Lemma Forall_flat_map {A B} (P : B -> Prop) (g : A -> list B) (l : list A) :
  Forall (fun a => Forall P (g a)) l -> Forall P (flat_map g l).
Proof.
  induction 1 as [|a l Ha _ IH]; simpl; [constructor | now apply Forall_app].
Qed.

Lemma eval_idempotent m : eval (eval m) = eval m.
Proof.
  induction m as [n t ps bs cs IH] using Module_nested_ind; simpl.
  f_equal. rewrite map_map. apply map_ext_Forall. exact IH.
Qed.

Lemma set_requires_grad_idempotent b p :
  set_requires_grad b (set_requires_grad b p) = set_requires_grad b p.
Proof. reflexivity. Qed.

Lemma for_parameters_idempotent b m :
  for_parameters_set_requires_grad b (for_parameters_set_requires_grad b m)
  = for_parameters_set_requires_grad b m.
Proof.
  induction m as [n t ps bs cs IH] using Module_nested_ind; simpl.
  f_equal.
  - rewrite map_map. apply map_ext. intros p. apply set_requires_grad_idempotent.
  - rewrite map_map. apply map_ext_Forall. exact IH.
Qed.

Lemma eval_for_parameters b m :
  eval (for_parameters_set_requires_grad b m)
  = for_parameters_set_requires_grad b (eval m).
Proof.
  induction m as [n t ps bs cs IH] using Module_nested_ind; simpl.
  f_equal. rewrite !map_map. apply map_ext_Forall. exact IH.
Qed.

(** The two steps of [freeze] on a module tree. *)
Lemma freeze_steps_idempotent m :
  for_parameters_set_requires_grad false
    (eval (for_parameters_set_requires_grad false (eval m)))
  = for_parameters_set_requires_grad false (eval m).
Proof.
  now rewrite eval_for_parameters, eval_idempotent, for_parameters_idempotent.
Qed.

Lemma parameters_eval m : parameters (eval m) = parameters m.
Proof.
  induction m as [n t ps bs cs IH] using Module_nested_ind; simpl.
  f_equal. rewrite flat_map_map. apply flat_map_pointwise. exact IH.
Qed.

Lemma parameters_for_parameters b m :
  parameters (for_parameters_set_requires_grad b m)
  = map (set_requires_grad b) (parameters m).
Proof.
  induction m as [n t ps bs cs IH] using Module_nested_ind; simpl.
  rewrite map_app. f_equal.
  rewrite flat_map_map, map_flat_map. apply flat_map_pointwise. exact IH.
Qed.

Lemma parameters_named n m : parameters (named n m) = parameters m.
Proof. destruct m; reflexivity. Qed.

Lemma training_flags_for_parameters b m :
  training_flags (for_parameters_set_requires_grad b m) = training_flags m.
Proof.
  induction m as [n t ps bs cs IH] using Module_nested_ind; simpl.
  f_equal. rewrite flat_map_map. apply flat_map_pointwise. exact IH.
Qed.

Lemma eval_in_eval_mode m : in_eval_mode (eval m).
Proof.
  unfold in_eval_mode.
  induction m as [n t ps bs cs IH] using Module_nested_ind; simpl.
  constructor; [reflexivity|].
  rewrite flat_map_map. apply Forall_flat_map. exact IH.
Qed.

Lemma frozen_tree_all_frozen m :
  all_frozen (for_parameters_set_requires_grad false m).
Proof.
  unfold all_frozen. rewrite parameters_for_parameters.
  apply Forall_map. apply Forall_forall. reflexivity.
Qed.

Lemma frozen_tree_in_eval_mode m :
  in_eval_mode (for_parameters_set_requires_grad false (eval m)).
Proof.
  unfold in_eval_mode. rewrite training_flags_for_parameters.
  apply eval_in_eval_mode.
Qed.

(** Parameters of an instance whose only registered submodule is [child]. *)
Lemma wrapper_all_frozen t bs attr child :
  all_frozen child -> all_frozen (mkModule EmptyString t [] bs [named attr child]).
Proof.
  unfold all_frozen. simpl. rewrite app_nil_r, parameters_named. auto.
Qed.

(** ** Freezing *)

(** An instance whose wrapped tree went through the loop of [freeze]. *)
Ltac frozen_wrapper :=
  apply wrapper_all_frozen; cbn; apply frozen_tree_all_frozen.

Ltac wrapped_in_eval_mode :=
  cbn; apply frozen_tree_in_eval_mode.

(** C5.  [freeze()] is idempotent on every class that provides it
    (FrozenCLIPEmbedder, FrozenT5Embedder, FrozenCLIPTextEmbedder,
    FrozenSDUNet): a second call gives the very state the first call
    reached, and in that state every parameter has [requires_grad = False]
    and the wrapped model is in evaluation mode. *)
Theorem C5_freeze_idempotent :
  (forall s : FrozenCLIPEmbedder,
      FrozenCLIPEmbedder_freeze (FrozenCLIPEmbedder_freeze s)
      = FrozenCLIPEmbedder_freeze s
      /\ all_frozen (FrozenCLIPEmbedder_module
                       (FrozenCLIPEmbedder_freeze (FrozenCLIPEmbedder_freeze s)))
      /\ in_eval_mode (net (fce_transformer
                       (FrozenCLIPEmbedder_freeze (FrozenCLIPEmbedder_freeze s)))))
  /\ (forall s : FrozenT5Embedder,
      FrozenT5Embedder_freeze (FrozenT5Embedder_freeze s)
      = FrozenT5Embedder_freeze s
      /\ all_frozen (FrozenT5Embedder_module
                       (FrozenT5Embedder_freeze (FrozenT5Embedder_freeze s)))
      /\ in_eval_mode (net (ft5_transformer
                       (FrozenT5Embedder_freeze (FrozenT5Embedder_freeze s)))))
  /\ (forall s : FrozenCLIPTextEmbedder,
      FrozenCLIPTextEmbedder_freeze (FrozenCLIPTextEmbedder_freeze s)
      = FrozenCLIPTextEmbedder_freeze s
      /\ all_frozen (FrozenCLIPTextEmbedder_module
                       (FrozenCLIPTextEmbedder_freeze (FrozenCLIPTextEmbedder_freeze s)))
      /\ in_eval_mode (clip_net (fcte_model
                       (FrozenCLIPTextEmbedder_freeze (FrozenCLIPTextEmbedder_freeze s)))))
  /\ (forall s : FrozenSDUNet,
      FrozenSDUNet_freeze (FrozenSDUNet_freeze s) = FrozenSDUNet_freeze s
      /\ all_frozen (FrozenSDUNet_module
                       (FrozenSDUNet_freeze (FrozenSDUNet_freeze s)))
      /\ in_eval_mode (ld_net (sdu_model
                       (FrozenSDUNet_freeze (FrozenSDUNet_freeze s))))).
Proof.
  repeat split;
    first [ frozen_wrapper
          | wrapped_in_eval_mode
          | cbv [FrozenCLIPEmbedder_freeze FrozenT5Embedder_freeze
                 FrozenCLIPTextEmbedder_freeze FrozenSDUNet_freeze
                 with_net clip_with_net];
            cbn; now rewrite freeze_steps_idempotent ].
Qed.

(** C6.  The constructor of FrozenCLIPTextEmbedder does not freeze: the
    instance's parameters are those of the loaded model, flag for flag, and
    become frozen only by an explicit [freeze()]; the constructor of
    FrozenCLIPEmbedder calls [freeze()], so all its parameters have
    [requires_grad = False] as soon as it is built. *)
Theorem C6_text_embedder_not_frozen_at_construction :
  forall (version device : string) (max_length n_repeat : Z) (normalize : bool),
    parameters (FrozenCLIPTextEmbedder_module
                  (FrozenCLIPTextEmbedder_init version device max_length
                                               n_repeat normalize))
    = parameters (clip_net (clip_load version "cpu" false))
    /\ all_frozen (FrozenCLIPTextEmbedder_module
                     (FrozenCLIPTextEmbedder_freeze
                        (FrozenCLIPTextEmbedder_init version device max_length
                                                     n_repeat normalize)))
    /\ all_frozen (FrozenCLIPEmbedder_module
                     (FrozenCLIPEmbedder_init version device max_length)).
Proof.
  intros. repeat split.
  - cbn. now rewrite app_nil_r, parameters_named.
  - frozen_wrapper.
  - frozen_wrapper.
Qed.

(** ** SpatialRescaler *)

Lemma in_valid_methods method :
  existsb (String.eqb method) valid_methods = true <-> In method valid_methods.
Proof.
  rewrite existsb_exists. split.
  - intros [m [Hin Heq]]. apply String.eqb_eq in Heq. now subst.
  - intros Hin. exists method. split; [exact Hin | apply String.eqb_refl].
Qed.

(** The loop of [forward] is [k] passes of its body. *)
Lemma fold_left_passes {A B} (step : A -> option A) (l : list B) :
  forall acc : option A,
    fold_left (fun (a : option A) (_ : B) => x <- a ;; step x) l acc
    = (x <- acc ;; passes (List.length l) step x).
Proof.
  induction l as [|b l IH]; intros [x|]; simpl; try reflexivity.
  - rewrite IH. reflexivity.
  - rewrite IH. reflexivity.
Qed.

Lemma length_range n : List.length (range n) = Z.to_nat n.
Proof. unfold range. now rewrite length_map, length_seq. Qed.

Lemma SpatialRescaler_init_inv n_stages method multiplier in_ch out_ch bias self :
  SpatialRescaler_init n_stages method multiplier in_ch out_ch bias = Some self ->
  0 <= n_stages /\ In method valid_methods
  /\ sr_n_stages self = n_stages
  /\ sr_multiplier self = multiplier
  /\ sr_interpolator_mode self = method
  /\ sr_remap_output self = match out_ch with Some _ => true | None => false end
  /\ sr_channel_mapper self
     = option_map (fun oc => mkConv2d in_ch oc 1 bias) out_ch.
Proof.
  unfold SpatialRescaler_init.
  destruct (n_stages >=? 0) eqn:Hn; cbn [negb]; [|discriminate].
  destruct (existsb (String.eqb method) valid_methods) eqn:Hm; cbn [negb]; [|discriminate].
  apply in_valid_methods in Hm. apply Z.geb_le in Hn.
  destruct out_ch as [oc|].
  - unfold Conv2d_init. destruct ((in_ch <? 0) || (oc <? 0)); simpl; [discriminate|].
    intros [= <-]. simpl. repeat split; auto.
  - intros [= <-]. simpl. repeat split; auto.
Qed.

(** C10.  The constructor of SpatialRescaler succeeds only with
    [n_stages >= 0] and a method among nearest, linear, bilinear, trilinear,
    bicubic and area (otherwise an assertion fails), and the instance it
    builds keeps that method as the mode of its interpolator and runs its
    loop [n_stages] times. *)
Theorem C10_rescaler_constructor_asserts :
  forall (n_stages : Z) (method : string) (multiplier : Q) (in_ch : Z)
         (out_ch : option Z) (bias : bool),
    match SpatialRescaler_init n_stages method multiplier in_ch out_ch bias with
    | Some self =>
        0 <= n_stages /\ In method valid_methods
        /\ In (sr_interpolator_mode self) valid_methods
        /\ sr_interpolator_mode self = method
        /\ List.length (range (sr_n_stages self)) = Z.to_nat n_stages
    | None =>
        n_stages < 0 \/ ~ In method valid_methods
        \/ exists oc, out_ch = Some oc /\ (in_ch < 0 \/ oc < 0)
    end.
Proof.
  intros.
  destruct (SpatialRescaler_init n_stages method multiplier in_ch out_ch bias)
    as [self|] eqn:Hinit.
  - apply SpatialRescaler_init_inv in Hinit.
    destruct Hinit as (Hn & Hm & Hs & _ & Hmode & _).
    rewrite Hmode, Hs, length_range. auto.
  - unfold SpatialRescaler_init in Hinit.
    destruct (n_stages >=? 0) eqn:Hn; cbn [negb] in Hinit.
    + destruct (existsb (String.eqb method) valid_methods) eqn:Hm; cbn [negb] in Hinit.
      * right. right. destruct out_ch as [oc|]; [|discriminate].
        exists oc. split; [reflexivity|].
        unfold Conv2d_init in Hinit.
        destruct (in_ch <? 0) eqn:Hi; [left; now apply Z.ltb_lt|].
        destruct (oc <? 0) eqn:Ho; [right; now apply Z.ltb_lt|].
        discriminate Hinit.
      * right. left. intros Hin. apply in_valid_methods in Hin. congruence.
    + left. rewrite Z.geb_leb in Hn. apply Z.leb_gt in Hn. lia.
Qed.

Lemma SpatialRescaler_forward_passes self x :
  SpatialRescaler_forward self x
  = (y <- passes (Z.to_nat (sr_n_stages self))
            (fun t => interpolate t (sr_multiplier self) (sr_interpolator_mode self)) x ;;
     if sr_remap_output self
     then conv <- sr_channel_mapper self ;; Conv2d_forward conv y
     else Some y).
Proof.
  unfold SpatialRescaler_forward.
  rewrite (fold_left_passes
             (fun t => interpolate t (sr_multiplier self) (sr_interpolator_mode self))).
  now rewrite length_range.
Qed.

Lemma interpolate_inv x m mode y b c h w :
  shape x = [b; c; h; w] ->
  interpolate x m mode = Some y ->
  shape y = [b; c; scaled_size m h; scaled_size m w]
  /\ mode_supports mode 2 = true.
Proof.
  unfold interpolate. intros ->. cbn [map List.length].
  destruct (mode_supports mode 2); cbn [andb]; [|discriminate].
  match goal with |- (if ?g then _ else _) = _ -> _ => destruct g end;
    [|discriminate].
  intros [= <-]. split; reflexivity.
Qed.









(** ** Tokenizers *)

Lemma mapM_total {A B} (f : A -> option B) (g : A -> B) (l : list A) :
  (forall a, In a l -> f a = Some (g a)) -> mapM f l = Some (map g l).
Proof.
  induction l as [|a l IH]; intros H; cbn [mapM map]; [reflexivity|].
  rewrite (H a (or_introl eq_refl)). cbn [bind].
  rewrite IH by (intros a' Ha'; apply H; now right). reflexivity.
Qed.

Lemma mapM_fails {A B} (f : A -> option B) (l : list A) (a : A) :
  In a l -> f a = None -> mapM f l = None.
Proof.
  induction l as [|a' l IH]; intros Hin Hf; [destruct Hin|].
  cbn [mapM]. destruct Hin as [->|Hin].
  - now rewrite Hf.
  - destruct (f a'); [|reflexivity]. cbn [bind]. now rewrite (IH Hin Hf).
Qed.

Lemma length_truncated_core tok m s :
  num_special_tokens tok <= m ->
  Z.of_nat (List.length
              (prefix_tokens tok
               ++ firstn (Z.to_nat (m - num_special_tokens tok)) (encode_raw tok s)
               ++ suffix_tokens tok))
  = true_token_count tok m s.
Proof.
  unfold true_token_count, num_special_tokens. intros Hm.
  rewrite !length_app, length_firstn. lia.
Qed.

Lemma length_pad_to pad n row :
  (List.length row <= n)%nat -> List.length (pad_to pad n row) = n.
Proof. unfold pad_to. rewrite length_app, repeat_length. lia. Qed.

Lemma length_fixed_length_row tok m s :
  num_special_tokens tok <= m ->
  List.length (fixed_length_row tok m s) = Z.to_nat m.
Proof.
  intros Hm. unfold fixed_length_row. apply length_pad_to.
  pose proof (length_truncated_core tok m s Hm) as H.
  unfold true_token_count in H. lia.
Qed.

(** Past the true token count a fixed-length row holds the padding id. *)
Lemma fixed_length_row_padding tok m s (i : Z) :
  num_special_tokens tok <= m ->
  true_token_count tok m s <= i < m ->
  nth (Z.to_nat i) (fixed_length_row tok m s) 0 = pad_token_id tok.
Proof.
  intros Hm Hi. unfold fixed_length_row, pad_to.
  pose proof (length_truncated_core tok m s Hm) as Hlen.
  assert (0 <= true_token_count tok m s) by (rewrite <- Hlen; lia).
  rewrite app_nth2 by lia.
  apply nth_repeat_lt. lia.
Qed.

(** Before it, the row holds the special tokens around the truncated ids. *)
Lemma fixed_length_row_tokens tok m s (i : Z) :
  num_special_tokens tok <= m ->
  0 <= i < true_token_count tok m s ->
  nth (Z.to_nat i) (fixed_length_row tok m s) 0
  = nth (Z.to_nat i)
      (prefix_tokens tok
       ++ firstn (Z.to_nat (m - num_special_tokens tok)) (encode_raw tok s)
       ++ suffix_tokens tok) 0.
Proof.
  intros Hm Hi. unfold fixed_length_row, pad_to.
  pose proof (length_truncated_core tok m s Hm) as Hlen.
  apply app_nth1. lia.
Qed.

Lemma tensor_of_rows_rectangular (rows : list (list Z)) (n : nat) :
  rows <> [] ->
  Forall (fun r => List.length r = n) rows ->
  exists t,
    tensor_of_rows rows = Some t
    /\ shape t = [Z.of_nat (List.length rows); Z.of_nat n]
    /\ forall b i, get t [b; i] = nth (Z.to_nat i) (nth (Z.to_nat b) rows []) 0.
Proof.
  intros Hne Hall. destruct rows as [|r rows']; [congruence|].
  unfold tensor_of_rows.
  assert (Hr : List.length r = n) by now inversion Hall.
  replace (forallb (fun r' => (List.length r' =? List.length r)%nat) (r :: rows'))
    with true.
  - eexists. split; [reflexivity|]. rewrite Hr. split; reflexivity.
  - symmetry. apply forallb_forall. intros r' Hin.
    rewrite Forall_forall in Hall. rewrite (Hall r' Hin), Hr.
    apply Nat.eqb_refl.
Qed.

(** With truncation and padding to [m], every batch becomes a (B, m) tensor
    whose rows are the fixed-length rows of its strings. *)
Lemma tokenizer_call_fixed_length tok m text :
  num_special_tokens tok <= m -> text <> [] ->
  exists t,
    tokenizer_call tok (mkKwargs true (Some m) PadMaxLength) text
    = Some (mkBatchEncoding t)
    /\ shape t = [Z.of_nat (List.length text); m]
    /\ forall b i,
         get t [b; i]
         = nth (Z.to_nat i)
             (nth (Z.to_nat b) (map (fixed_length_row tok m) text) []) 0.
Proof.
  intros Hm Hne. unfold tokenizer_call.
  rewrite (mapM_total _
             (fun s => prefix_tokens tok
                       ++ firstn (Z.to_nat (m - num_special_tokens tok))
                                 (encode_raw tok s)
                       ++ suffix_tokens tok)).
  2:{ intros s _. unfold encode_one, truncate_ids. cbn [truncation max_length].
      apply Z.ltb_ge in Hm. rewrite Hm. reflexivity. }
  cbn [bind]. unfold pad_batch. cbn [padding max_length]. rewrite map_map.
  change (map _ text) with (map (fixed_length_row tok m) text).
  destruct (tensor_of_rows_rectangular (map (fixed_length_row tok m) text)
              (Z.to_nat m)) as (t & Ht & Hshape & Hget).
  - destruct text; [congruence | discriminate].
  - apply Forall_map, Forall_forall. intros s _.
    now apply length_fixed_length_row.
  - exists t. rewrite Ht. cbn [bind]. split; [reflexivity|].
    split; [|exact Hget].
    rewrite Hshape, length_map, Z2Nat.id; [reflexivity|].
    unfold num_special_tokens in Hm. lia.
Qed.

Lemma BERTTokenizer_forward_fixed_length device vq m text :
  2 <= m -> text <> [] ->
  exists tokens,
    BERTTokenizer_forward (BERTTokenizer_init device vq m) text = Some tokens
    /\ shape tokens = [Z.of_nat (List.length text); m]
    /\ forall b i,
         get tokens [b; i]
         = nth (Z.to_nat i)
             (nth (Z.to_nat b) (map (fixed_length_row bert_base_uncased m) text) []) 0.
Proof.
  intros Hm Hne.
  destruct (tokenizer_call_fixed_length bert_base_uncased m text)
    as (t & Ht & Hshape & Hget); [exact Hm | exact Hne |].
  exists t. unfold BERTTokenizer_forward, BERTTokenizer_init.
  cbn [bt_tokenizer bt_max_length bt_device]. rewrite Ht. cbn [bind input_ids].
  unfold to_device. auto.
Qed.

(** C9.  [BERTTokenizer.encode] on a batch of B strings gives the (B,
    max_length) tensor of token ids itself when [vq_interface] is false, and
    the triple [(None, None, [None, None, tokens])] when it is true; in each
    row the positions past the true token count hold the padding id, the
    ones before it the truncated ids between [CLS] and [SEP]. *)
Theorem C9_bert_tokenizer_encode :
  forall (device : string) (vq_interface : bool) (max_length : Z)
         (text : list string),
    2 <= max_length -> text <> [] ->
    exists tokens : Tensor Z,
      BERTTokenizer_forward (BERTTokenizer_init device vq_interface max_length) text
      = Some tokens
      /\ shape tokens = [Z.of_nat (List.length text); max_length]
      /\ BERTTokenizer_encode (BERTTokenizer_init device vq_interface max_length) text
         = Some (if vq_interface
                 then VQTriple None None [None; None; Some tokens]
                 else Tokens tokens)
      /\ (forall (b : nat) (s : string) (i : Z),
             nth_error text b = Some s ->
             true_token_count bert_base_uncased max_length s <= i < max_length ->
             get tokens [Z.of_nat b; i] = pad_token_id bert_base_uncased)
      /\ (forall (b : nat) (s : string) (i : Z),
             nth_error text b = Some s ->
             0 <= i < true_token_count bert_base_uncased max_length s ->
             get tokens [Z.of_nat b; i]
             = nth (Z.to_nat i)
                 ([101] ++ firstn (Z.to_nat (max_length - 2)) (bert_wordpiece s)
                  ++ [102]) 0).
Proof.
  intros device vq m text Hm Hne.
  destruct (BERTTokenizer_forward_fixed_length device vq m text Hm Hne)
    as (tokens & Hfwd & Hshape & Hget).
  exists tokens. split; [exact Hfwd|]. split; [exact Hshape|]. split; [|split].
  - unfold BERTTokenizer_encode. rewrite Hfwd. cbn [bind].
    destruct vq; reflexivity.
  - intros b s i Hb Hi. rewrite Hget, Nat2Z.id.
    rewrite (nth_error_nth _ _ _ (map_nth_error _ _ _ Hb)).
    now apply fixed_length_row_padding.
  - intros b s i Hb Hi. rewrite Hget, Nat2Z.id.
    rewrite (nth_error_nth _ _ _ (map_nth_error _ _ _ Hb)).
    now apply fixed_length_row_tokens.
Qed.

(** C1.  [BERTEmbedder.encode] with its tokenizer turns every batch of B
    strings into a tensor of shape (B, max_seq_len, n_embed), whatever the
    lengths of the strings: the tokenizer has cut and padded every row to
    [max_seq_len] before the transformer stack runs on the tokens. *)
Theorem C1_bert_embedder_shape :
  forall (n_embed n_layer vocab_size max_seq_len : Z) (device : string)
         (embedding_dropout : R) (text : list string),
    2 <= max_seq_len -> text <> [] ->
    let self := BERTEmbedder_init n_embed n_layer vocab_size max_seq_len device
                                  true embedding_dropout in
    exists (tokens : Tensor Z) (z : Tensor R),
      option_map (fun tknz_fn => BERTTokenizer_forward tknz_fn text) (be_tknz_fn self)
      = Some (Some tokens)
      /\ shape tokens = [Z.of_nat (List.length text); max_seq_len]
      /\ (forall b i,
             get tokens [b; i]
             = nth (Z.to_nat i)
                 (nth (Z.to_nat b)
                    (map (fixed_length_row bert_base_uncased max_seq_len) text) []) 0)
      /\ TransformerWrapper_forward (be_transformer self) tokens true = Some z
      /\ BERTEmbedder_encode self (Strings text) = Some z
      /\ shape z = [Z.of_nat (List.length text); max_seq_len; n_embed].
Proof.
  intros n_embed n_layer vocab m device dropout text Hm Hne self.
  destruct (BERTTokenizer_forward_fixed_length "cuda" false m text Hm Hne)
    as (tokens & Hfwd & Hshape & Hget).
  assert (Hz : exists z,
             TransformerWrapper_forward (be_transformer self) tokens true = Some z
             /\ shape z = [Z.of_nat (List.length text); m; n_embed]).
  { unfold TransformerWrapper_forward. rewrite Hshape.
    subst self. cbn [BERTEmbedder_init be_transformer TransformerWrapper_init
                     tw_max_seq_len tw_attn_layers enc_dim].
    rewrite Z.leb_refl. eexists. split; reflexivity. }
  destruct Hz as (z & Hz & Hzshape).
  exists tokens, z. subst self. cbn [BERTEmbedder_init be_tknz_fn option_map].
  rewrite Hfwd. repeat split; auto.
  unfold BERTEmbedder_encode, BERTEmbedder_forward.
  cbn [BERTEmbedder_init be_use_tknz_fn be_tknz_fn]. rewrite Hfwd. cbn [bind].
  exact Hz.
Qed.

(** Without truncation and padding the rows keep their own lengths; they
    stack into a tensor only if these agree. *)
Lemma tokenizer_call_plain tok text (n : nat) :
  text <> [] ->
  Forall (fun s => List.length (encode_raw tok s) = n) text ->
  exists t,
    tokenizer_call tok (mkKwargs false None DoNotPad) text = Some (mkBatchEncoding t)
    /\ shape t = [Z.of_nat (List.length text);
                  Z.of_nat (List.length (prefix_tokens tok) + n
                            + List.length (suffix_tokens tok))]
    /\ forall b i,
         get t [b; i]
         = nth (Z.to_nat i)
             (nth (Z.to_nat b)
                (map (fun s => prefix_tokens tok ++ encode_raw tok s
                               ++ suffix_tokens tok) text) []) 0.
Proof.
  intros Hne Hall. unfold tokenizer_call.
  rewrite (mapM_total _ (fun s => prefix_tokens tok ++ encode_raw tok s
                                  ++ suffix_tokens tok))
    by (intros s _; reflexivity).
  cbn [bind]. unfold pad_batch. cbn [padding].
  destruct (tensor_of_rows_rectangular
              (map (fun s => prefix_tokens tok ++ encode_raw tok s
                             ++ suffix_tokens tok) text)
              (List.length (prefix_tokens tok) + n
               + List.length (suffix_tokens tok)))
    as (t & Ht & Hshape & Hget).
  - destruct text; [congruence | discriminate].
  - apply Forall_map. revert Hall. apply Forall_impl. intros s Hs.
    rewrite !length_app, Hs. lia.
  - exists t. rewrite Ht. cbn [bind]. rewrite Hshape, length_map. auto.
Qed.

Lemma tokenizer_call_ragged tok s1 s2 :
  List.length (encode_raw tok s1) <> List.length (encode_raw tok s2) ->
  tokenizer_call tok (mkKwargs false None DoNotPad) [s1; s2] = None.
Proof.
  intros Hneq. unfold tokenizer_call. cbn [mapM encode_one truncate_ids truncation bind
    pad_batch padding tensor_of_rows forallb].
  rewrite Nat.eqb_refl. cbn [andb].
  destruct (Nat.eqb_spec
              (List.length (prefix_tokens tok ++ encode_raw tok s2 ++ suffix_tokens tok))
              (List.length (prefix_tokens tok ++ encode_raw tok s1 ++ suffix_tokens tok)))
    as [Heq|_]; [|reflexivity].
  rewrite !length_app in Heq. lia.
Qed.

(** C8.  [FrozenT5Embedder.encode] tokenizes without truncation and without
    padding: each row is the string's sentencepiece ids followed by the
    end-of-sequence id, so a batch whose strings have [n] ids each comes out
    with L = n + 1, a batch of two strings of different lengths cannot even
    be stacked, and the stored [max_length] plays no part.  The forward pass
    runs with gradients disabled, whatever the ambient grad mode and the
    flags of the parameters, which the constructor has frozen anyway. *)
Theorem C8_t5_embedder_variable_length :
  forall (device : string) (max_length : Z) (text : list string)
         (grad_enabled : bool) (n : nat),
    text <> [] ->
    Forall (fun s => List.length (t5_sentencepiece s) = n) text ->
    let self := FrozenT5Embedder_init device max_length in
    (exists (tokens : Tensor Z) (z : Tensor R),
        tokenizer_call (ft5_tokenizer self) (mkKwargs false None DoNotPad) text
        = Some (mkBatchEncoding tokens)
        /\ (forall b i,
               get tokens [b; i]
               = nth (Z.to_nat i)
                   (nth (Z.to_nat b)
                      (map (fun s => t5_sentencepiece s ++ [1]) text) []) 0)
        /\ FrozenT5Embedder_encode self text grad_enabled
           = Some (mkTraced z false, grad_enabled)
        /\ shape z = [Z.of_nat (List.length text); Z.of_nat n + 1;
                      hidden_size (ft5_transformer self)])
    /\ (forall s1 s2,
           List.length (t5_sentencepiece s1) <> List.length (t5_sentencepiece s2) ->
           FrozenT5Embedder_encode self [s1; s2] grad_enabled = None)
    /\ (forall (other : FrozenT5Embedder) (m : Z) (txt : list string),
           FrozenT5Embedder_encode
             (mkFrozenT5Embedder (ft5_training other) (ft5_tokenizer other)
                                 (ft5_transformer other) (ft5_device other) m)
             txt grad_enabled
           = FrozenT5Embedder_encode other txt grad_enabled)
    /\ (forall (other : FrozenT5Embedder) (txt : list string) (z : Traced)
               (mode : bool),
           FrozenT5Embedder_encode other txt grad_enabled = Some (z, mode) ->
           tracked z = false /\ mode = grad_enabled)
    /\ all_frozen (FrozenT5Embedder_module self).
Proof.
  intros device max_length text grad_enabled n Hne Hall self.
  split; [|split; [|split; [|split]]].
  - destruct (tokenizer_call_plain t5_v1_1_xl_tokenizer text n Hne Hall)
      as (tokens & Htok & Hshape & Hget).
    exists tokens.
    eexists (mkTensor [Z.of_nat (List.length text); Z.of_nat n + 1;
                       hidden_size (ft5_transformer self)] _).
    split; [exact Htok|]. split; [exact Hget|]. split; [|reflexivity].
    unfold FrozenT5Embedder_encode, FrozenT5Embedder_forward.
    subst self. cbn [FrozenT5Embedder_init FrozenT5Embedder_freeze ft5_tokenizer
                     ft5_transformer ft5_device].
    rewrite Htok. cbn [bind input_ids]. unfold to_device, model_call.
    rewrite Hshape. cbn [with_net t5_v1_1_xl_encoder max_position_embeddings
                         hidden_size last_hidden_state_kernel net andb].
    cbn [t5_v1_1_xl_tokenizer prefix_tokens suffix_tokens List.length].
    replace (Z.of_nat (0 + n + 1)) with (Z.of_nat n + 1) by lia.
    reflexivity.
  - intros s1 s2 Hneq. unfold FrozenT5Embedder_encode, FrozenT5Embedder_forward.
    subst self. cbn [FrozenT5Embedder_init FrozenT5Embedder_freeze ft5_tokenizer].
    rewrite (tokenizer_call_ragged t5_v1_1_xl_tokenizer s1 s2 Hneq). reflexivity.
  - intros other m txt. reflexivity.
  - intros other txt z mode. unfold FrozenT5Embedder_encode, FrozenT5Embedder_forward.
    destruct (tokenizer_call (ft5_tokenizer other) (mkKwargs false None DoNotPad) txt)
      as [enc|]; [|discriminate].
    cbn [bind]. unfold model_call.
    destruct (shape (to_device (input_ids enc) (ft5_device other)))
      as [|b [|l [|? ?]]]; try discriminate.
    destruct (match max_position_embeddings (ft5_transformer other) with
              | Some n0 => l <=? n0 | None => true end); [|discriminate].
    cbn [bind andb]. intros [= <- <-]. split; reflexivity.
  - frozen_wrapper.
Qed.

(** ** FrozenSDUNet *)






(** ** FrozenCLIPTextEmbedder *)



Lemma clip_tokenize_fits bpe texts :
  Forall (fun s => Z.of_nat (List.length (bpe s)) + 2 <= 77) texts ->
  exists tokens,
    clip_tokenize bpe texts 77 false = Some tokens
    /\ shape tokens = [Z.of_nat (List.length texts); 77].
Proof.
  intros Hfit. unfold clip_tokenize.
  rewrite (mapM_total _ (list_to_row (Z.to_nat 77))).
  - cbn [bind]. eexists. split; [reflexivity|]. cbn [shape].
    now rewrite length_map.
  - intros tokens Hin. apply in_map_iff in Hin. destruct Hin as (s & <- & Hs).
    rewrite Forall_forall in Hfit. specialize (Hfit s Hs).
    destruct (Z.gtb_spec (Z.of_nat (List.length ([sot_token] ++ bpe s ++ [eot_token]))) 77)
      as [Hgt|_]; [|reflexivity].
    rewrite !length_app in Hgt. cbn [List.length] in Hgt. lia.
Qed.

Lemma clip_tokenize_too_long bpe texts s :
  In s texts -> 77 < Z.of_nat (List.length (bpe s)) + 2 ->
  clip_tokenize bpe texts 77 false = None.
Proof.
  intros Hin Hlong. unfold clip_tokenize.
  rewrite (mapM_fails _ _ ([sot_token] ++ bpe s ++ [eot_token])); [reflexivity | |].
  - apply in_map_iff. exists s. auto.
  - destruct (Z.gtb_spec (Z.of_nat (List.length ([sot_token] ++ bpe s ++ [eot_token]))) 77)
      as [_|Hle]; [reflexivity|].
    rewrite !length_app in Hle. cbn [List.length] in Hle. lia.
Qed.


(** ** FrozenClipImageEmbedder *)

Lemma string_append_assoc (a b c : string) :
  ((a ++ b) ++ c = a ++ (b ++ c))%string.
Proof. induction a as [|ch a IH]; cbn; [reflexivity | now rewrite IH]. Qed.

(** Every key of a module's state dict starts with the module's prefix. *)
Lemma state_dict_keys_prefix m :
  forall prefix k, In k (state_dict_keys prefix m) ->
                   exists rest, k = (prefix ++ rest)%string.
Proof.
  induction m as [n t ps bs cs IH] using Module_nested_ind.
  intros prefix k. cbn [state_dict_keys]. rewrite !in_app_iff.
  intros [Hk | [Hk | Hk]].
  - apply in_map_iff in Hk. destruct Hk as (p & <- & _). eauto.
  - apply in_map_iff in Hk. destruct Hk as (b & <- & _). eauto.
  - apply in_flat_map in Hk. destruct Hk as (c & Hc & Hk).
    rewrite Forall_forall in IH. destruct (IH c Hc _ _ Hk) as [rest ->].
    exists (m_name c ++ "." ++ rest)%string.
    now rewrite !string_append_assoc.
Qed.

Lemma affine_to_unit_interval (v : R) :
  (-1 <= v <= 1)%R -> (0 <= (v + 1.0) / 2.0 <= 1)%R.
Proof. intros H. lra. Qed.

(** C7.  [preprocess] resizes to 224 x 224 (bicubic, aligned corners, the
    instance's antialias flag, off by default), then maps every value [v] to
    [(v + 1) / 2], which takes [-1, 1] into [0, 1], then normalizes each
    channel with the fixed mean and standard deviation; the two vectors are
    buffers registered as non-persistent, so no key of the state dict names
    them. *)
Theorem C7_image_preprocess :
  forall (model : string) (jit : bool) (device : string) (antialias : bool)
         (x : Tensor R) (B H W : Z),
    shape x = [B; 3; H; W] -> 0 < H -> 0 < W ->
    let self := FrozenClipImageEmbedder_init model jit device antialias in
    exists (resized y : Tensor R),
      kornia_resize x (224, 224) "bicubic" true antialias = Some resized
      /\ shape resized = [B; 3; 224; 224]
      /\ get resized = resize_kernel (224, 224) "bicubic" true antialias x
      /\ FrozenClipImageEmbedder_preprocess self x = Some y
      /\ shape y = [B; 3; 224; 224]
      /\ (forall b ch i j,
             get y [b; ch; i; j]
             = (((get resized [b; ch; i; j] + 1.0) / 2.0
                 - nth (Z.to_nat ch) [0.48145466; 0.4578275; 0.40821073] 0)
                / nth (Z.to_nat ch) [0.26862954; 0.26130258; 0.27577711] 0)%R)
      /\ (forall v : R, (-1 <= v <= 1)%R -> (0 <= (v + 1.0) / 2.0 <= 1)%R)
      /\ fie_buffers self
         = [mkBuffer "mean" [0.48145466; 0.4578275; 0.40821073]%R false;
            mkBuffer "std" [0.26862954; 0.26130258; 0.27577711]%R false]
      /\ ~ In "mean"%string (state_dict_keys EmptyString (FrozenClipImageEmbedder_module self))
      /\ ~ In "std"%string (state_dict_keys EmptyString (FrozenClipImageEmbedder_module self))
      /\ fie_antialias (FrozenClipImageEmbedder_init_default model device) = false.
Proof.
  intros model jit device antialias x B H W Hx HH HW self.
  set (resized := mkTensor [B; 3; 224; 224]
                    (resize_kernel (224, 224) "bicubic" true antialias x)).
  assert (Hres : kornia_resize x (224, 224) "bicubic" true antialias = Some resized).
  { unfold kornia_resize. rewrite Hx. cbn [rev app].
    apply Z.ltb_lt in HH, HW. rewrite HH, HW. reflexivity. }
  exists resized.
  eexists (mkTensor [B; 3; 224; 224] _).
  split; [exact Hres|]. split; [reflexivity|]. split; [reflexivity|].
  split.
  { unfold FrozenClipImageEmbedder_preprocess.
    subst self. cbn [FrozenClipImageEmbedder_init register_buffer fie_antialias].
    rewrite Hres. cbn [bind]. reflexivity. }
  split; [reflexivity|]. split; [reflexivity|].
  split; [exact affine_to_unit_interval|]. split; [reflexivity|].
  assert (Hkeys : forall k,
             In k (state_dict_keys EmptyString (FrozenClipImageEmbedder_module self)) ->
             exists rest, k = ("model." ++ rest)%string).
  { intros k. subst self.
    cbn [FrozenClipImageEmbedder_module FrozenClipImageEmbedder_init
         register_buffer fie_buffers fie_model fie_training app
         state_dict_keys map filter persistent flat_map].
    rewrite app_nil_r. destruct (clip_net (clip_load model device jit)).
    apply state_dict_keys_prefix. }
  split; [|split; [|reflexivity]].
  - intros Hin. destruct (Hkeys _ Hin) as [rest Hrest]. discriminate Hrest.
  - intros Hin. destruct (Hkeys _ Hin) as [rest Hrest]. discriminate Hrest.
Qed.

(** * Further properties of the module *)

(** ** ClassEmbedder *)

Lemma In_range (i n : Z) : In i (range n) <-> 0 <= i < n.
Proof.
  unfold range. rewrite in_map_iff. split.
  - intros (k & <- & Hk). apply in_seq in Hk. lia.
  - intros Hi. exists (Z.to_nat i). split; [lia|]. apply in_seq. lia.
Qed.

Lemma all_indices_column (B : Z) :
  all_indices [B; 1] = map (fun i => [i; 0]) (range B).
Proof.
  unfold all_indices. cbn [fold_right].
  change (flat_map (fun i => map (cons i) [[]]) (range 1)) with [[0]].
  change (fun i : Z => map (cons i) [[0]]) with (fun i : Z => [[i; 0]]).
  induction (range B) as [|i l IH]; cbn [flat_map map app]; [reflexivity|].
  now rewrite IH.
Qed.

Lemma dict_lookup_missing {V} (d : list (string * V)) (k : string) :
  dict_lookup d k = None <-> ~ In k (map fst d).
Proof.
  unfold dict_lookup. induction d as [|[k' v] d IH]; cbn [find map fst In].
  - split; [intros _ H; exact H | reflexivity].
  - destruct (String.eqb_spec k' k) as [->|Hne]; cbn [option_map].
    + split; [discriminate | intros H; exfalso; apply H; left; reflexivity].
    + rewrite IH. split.
      * intros H [Heq|Hin]; [exact (Hne Heq) | exact (H Hin)].
      * intros H Hin. apply H. right. exact Hin.
Qed.

Lemma ClassEmbedder_init_inv embed_dim n_classes key self :
  ClassEmbedder_init embed_dim n_classes key = Some self ->
  0 <= n_classes /\ 0 <= embed_dim
  /\ self = mkClassEmbedder key
              (mkEmbedding n_classes embed_dim
                 (embedding_init_weight n_classes embed_dim)).
Proof.
  unfold ClassEmbedder_init, Embedding_init.
  destruct (n_classes <? 0) eqn:Hn; [discriminate|].
  destruct (embed_dim <? 0) eqn:Hd; [discriminate|].
  cbn. intros [= <-]. apply Z.ltb_ge in Hn, Hd. auto.
Qed.


(** X2.  [ClassEmbedder.forward] fails when the batch has no entry under the
    key it is asked for (or under its own key when none is given), when some
    class id is negative or not less than [n_classes], and when the entry is
    a single number rather than a vector. *)
Theorem X2_class_embedder_rejects :
  forall (embed_dim n_classes : Z) (key : string) (self : ClassEmbedder)
         (batch : list (string * Tensor Z)),
    ClassEmbedder_init embed_dim n_classes key = Some self ->
    (forall k, ~ In k (map fst batch) ->
               ClassEmbedder_forward self batch (Some k) = None)
    /\ (~ In key (map fst batch) -> ClassEmbedder_forward self batch None = None)
    /\ (forall k ids B i,
           dict_lookup batch k = Some ids -> shape ids = [B] -> 0 <= i < B ->
           get ids [i] < 0 \/ n_classes <= get ids [i] ->
           ClassEmbedder_forward self batch (Some k) = None)
    /\ (forall k ids,
           dict_lookup batch k = Some ids -> shape ids = [] ->
           ClassEmbedder_forward self batch (Some k) = None).
Proof.
  intros embed_dim n_classes key self batch Hinit.
  apply ClassEmbedder_init_inv in Hinit. destruct Hinit as (_ & _ & ->).
  split; [|split; [|split]]; cycle 3.
  { intros k ids Hk Hshape. unfold ClassEmbedder_forward. rewrite Hk. cbn [bind].
    unfold index_all_none. now rewrite Hshape. }
  - intros k Hk. apply dict_lookup_missing in Hk.
    unfold ClassEmbedder_forward. now rewrite Hk.
  - intros Hk. apply dict_lookup_missing in Hk.
    unfold ClassEmbedder_forward. cbn [ce_key]. now rewrite Hk.
  - intros k ids B i Hk Hshape Hi Hbad.
    unfold ClassEmbedder_forward. rewrite Hk. cbn [bind].
    unfold index_all_none. rewrite Hshape. cbn [bind].
    unfold Embedding_forward.
    cbn [shape get num_embeddings embedding_dim emb_weight ce_embedding].
    rewrite all_indices_column.
    replace (forallb _ (map (fun i => [i; 0]) (range B))) with false; [reflexivity|].
    symmetry. apply not_true_is_false. intros Hall.
    rewrite forallb_forall in Hall.
    specialize (Hall [i; 0]). cbn beta iota in Hall.
    assert (Hin : In [i; 0] (map (fun i => [i; 0]) (range B))).
    { apply in_map_iff. exists i. split; [reflexivity | now apply In_range]. }
    apply Hall in Hin. apply andb_prop in Hin. destruct Hin as [Hlo Hhi].
    apply Z.leb_le in Hlo. apply Z.ltb_lt in Hhi. lia.
Qed.

(** ** BERTTokenizer: what truncation keeps and what it loses *)

Lemma nth_error_fixed_row tok m text (b : nat) s :
  nth_error text b = Some s ->
  nth b (map (fixed_length_row tok m) text) [] = fixed_length_row tok m s.
Proof.
  intros Hb. exact (nth_error_nth _ _ _ (map_nth_error _ _ _ Hb)).
Qed.

(** X3.  In every row [BERTTokenizer.forward] builds, the first position is
    [CLS] and the last real token is [SEP], also when the string was cut;
    a string of at most [max_length - 2] ids is kept whole. *)
Theorem X3_bert_tokenizer_keeps_special_tokens :
  forall (device : string) (vq_interface : bool) (max_length : Z)
         (text : list string),
    2 <= max_length -> text <> [] ->
    exists tokens : Tensor Z,
      BERTTokenizer_forward (BERTTokenizer_init device vq_interface max_length) text
      = Some tokens
      /\ forall (b : nat) (s : string),
           nth_error text b = Some s ->
           let count := true_token_count bert_base_uncased max_length s in
           2 <= count <= max_length
           /\ get tokens [Z.of_nat b; 0] = 101
           /\ get tokens [Z.of_nat b; count - 1] = 102
           /\ (Z.of_nat (List.length (bert_wordpiece s)) + 2 <= max_length ->
               count = Z.of_nat (List.length (bert_wordpiece s)) + 2
               /\ forall i : nat,
                    (i < List.length (bert_wordpiece s))%nat ->
                    get tokens [Z.of_nat b; Z.of_nat i + 1]
                    = nth i (bert_wordpiece s) 0).
Proof.
  intros device vq m text Hm Hne.
  destruct (BERTTokenizer_forward_fixed_length device vq m text Hm Hne)
    as (tokens & Hfwd & _ & Hget).
  exists tokens. split; [exact Hfwd|].
  intros b s Hb count.
  assert (Hcount : count = Z.min m (2 + Z.of_nat (List.length (bert_wordpiece s))))
    by reflexivity.
  assert (Hrow : forall i, 0 <= i < count ->
             get tokens [Z.of_nat b; i]
             = nth (Z.to_nat i)
                 ([101] ++ firstn (Z.to_nat (m - 2)) (bert_wordpiece s) ++ [102]) 0).
  { intros i Hi. rewrite Hget, Nat2Z.id, (nth_error_fixed_row _ _ _ _ _ Hb).
    now apply (fixed_length_row_tokens bert_base_uncased m s i Hm). }
  assert (Hlen : List.length (firstn (Z.to_nat (m - 2)) (bert_wordpiece s))
                 = Z.to_nat (count - 2)).
  { rewrite length_firstn. lia. }
  split; [lia|]. split; [|split].
  - rewrite Hrow by lia. reflexivity.
  - rewrite Hrow by lia.
    replace (Z.to_nat (count - 1)) with (S (Z.to_nat (count - 2))) by lia.
    cbn [app nth]. rewrite app_nth2 by lia.
    rewrite Hlen, Nat.sub_diag. reflexivity.
  - intros Hfit. split; [lia|]. intros i Hi.
    rewrite Hrow by lia.
    replace (Z.to_nat (Z.of_nat i + 1)) with (S i) by lia.
    cbn [app nth]. rewrite firstn_all2 by lia.
    now apply app_nth1.
Qed.

(** Rows of the tokenizer call depend on the strings only through their
    first [m - special] ids. *)
Lemma tokenizer_call_truncation_blind tok m text1 text2 :
  num_special_tokens tok <= m ->
  map (fun s => firstn (Z.to_nat (m - num_special_tokens tok)) (encode_raw tok s)) text1
  = map (fun s => firstn (Z.to_nat (m - num_special_tokens tok)) (encode_raw tok s)) text2 ->
  tokenizer_call tok (mkKwargs true (Some m) PadMaxLength) text1
  = tokenizer_call tok (mkKwargs true (Some m) PadMaxLength) text2.
Proof.
  intros Hm Heq. unfold tokenizer_call.
  assert (Hrows : forall text,
             mapM (encode_one tok (mkKwargs true (Some m) PadMaxLength)) text
             = Some (map (fun ids => prefix_tokens tok ++ ids ++ suffix_tokens tok)
                     (map (fun s => firstn (Z.to_nat (m - num_special_tokens tok))
                                           (encode_raw tok s)) text))).
  { intros text. rewrite map_map. apply mapM_total. intros s _.
    unfold encode_one, truncate_ids. cbn [truncation max_length].
    apply Z.ltb_ge in Hm. rewrite Hm. reflexivity. }
  now rewrite !Hrows, Heq.
Qed.

(** X4.  [BERTEmbedder.encode] cannot tell apart two batches whose strings
    agree on their first [max_seq_len - 2] wordpiece ids: whatever lies past
    the cut has no effect on the embedding. *)
Theorem X4_bert_embedder_ignores_cut_tail :
  forall (n_embed n_layer vocab_size max_seq_len : Z) (device : string)
         (embedding_dropout : R) (text1 text2 : list string),
    2 <= max_seq_len ->
    map (fun s => firstn (Z.to_nat (max_seq_len - 2)) (bert_wordpiece s)) text1
    = map (fun s => firstn (Z.to_nat (max_seq_len - 2)) (bert_wordpiece s)) text2 ->
    BERTEmbedder_encode
      (BERTEmbedder_init n_embed n_layer vocab_size max_seq_len device true
                         embedding_dropout) (Strings text1)
    = BERTEmbedder_encode
        (BERTEmbedder_init n_embed n_layer vocab_size max_seq_len device true
                           embedding_dropout) (Strings text2).
Proof.
  intros n_embed n_layer vocab m device dropout text1 text2 Hm Heq.
  unfold BERTEmbedder_encode, BERTEmbedder_forward.
  cbn [BERTEmbedder_init be_use_tknz_fn be_tknz_fn].
  unfold BERTTokenizer_forward, BERTTokenizer_init.
  cbn [bt_tokenizer bt_max_length bt_device].
  now rewrite (tokenizer_call_truncation_blind bert_base_uncased m text1 text2 Hm Heq).
Qed.

(** ** FrozenCLIPEmbedder.encode *)

Lemma frozen_tree_untracked m :
  existsb requires_grad (parameters (for_parameters_set_requires_grad false m))
  = false.
Proof.
  rewrite parameters_for_parameters.
  induction (parameters m) as [|p l IH]; cbn; [reflexivity | exact IH].
Qed.

(** X5.  [FrozenCLIPEmbedder.encode] of a constructed instance turns every
    non-empty batch into hidden states of shape (B, max_length, hidden_size)
    that do not require gradients, whatever the ambient grad mode, as long
    as [max_length] does not exceed the position table of the text model;
    if it does, the call fails for every batch. *)
Theorem X5_frozen_clip_embedder_encode :
  forall (version device : string) (max_length : Z) (text : list string)
         (grad_enabled : bool),
    num_special_tokens (CLIPTokenizer_from_pretrained version) <= max_length ->
    text <> [] ->
    ((forall n, max_position_embeddings (CLIPTextModel_from_pretrained version) = Some n ->
                max_length <= n) ->
     exists z : Tensor R,
       FrozenCLIPEmbedder_encode (FrozenCLIPEmbedder_init version device max_length)
                                 text grad_enabled
       = Some (mkTraced z false)
       /\ shape z = [Z.of_nat (List.length text); max_length;
                     hidden_size (CLIPTextModel_from_pretrained version)])
    /\ (forall n, max_position_embeddings (CLIPTextModel_from_pretrained version) = Some n ->
                  n < max_length ->
                  FrozenCLIPEmbedder_encode
                    (FrozenCLIPEmbedder_init version device max_length)
                    text grad_enabled
                  = None).
Proof.
  intros version device m text g Hm Hne.
  destruct (tokenizer_call_fixed_length (CLIPTokenizer_from_pretrained version)
              m text Hm Hne) as (t & Ht & Hshape & _).
  assert (Hcall : FrozenCLIPEmbedder_encode
                    (FrozenCLIPEmbedder_init version device m) text g
                  = model_call (fce_transformer
                                  (FrozenCLIPEmbedder_init version device m)) g t).
  { unfold FrozenCLIPEmbedder_encode, FrozenCLIPEmbedder_forward.
    cbn [FrozenCLIPEmbedder_init FrozenCLIPEmbedder_freeze fce_tokenizer
         fce_max_length fce_device fce_transformer].
    rewrite Ht. reflexivity. }
  rewrite Hcall. unfold model_call. rewrite Hshape.
  cbn [FrozenCLIPEmbedder_init FrozenCLIPEmbedder_freeze fce_transformer with_net
       max_position_embeddings hidden_size net last_hidden_state_kernel].
  rewrite frozen_tree_untracked, andb_false_r.
  split.
  - intros Hfit.
    destruct (max_position_embeddings (CLIPTextModel_from_pretrained version))
      as [n|].
    + specialize (Hfit n eq_refl). apply Z.leb_le in Hfit. rewrite Hfit.
      eexists. split; reflexivity.
    + eexists. split; reflexivity.
  - intros n Hn Hlt. rewrite Hn. apply Z.leb_gt in Hlt. now rewrite Hlt.
Qed.

(** ** Tokens in place of strings *)


(** ** SpatialRescaler: other multipliers, composition and failures *)

Lemma SpatialRescaler_encode_constructed n_stages method multiplier in_ch out_ch
      bias self x :
  SpatialRescaler_init n_stages method multiplier in_ch out_ch bias = Some self ->
  SpatialRescaler_encode self x
  = (y <- passes (Z.to_nat n_stages) (fun t => interpolate t multiplier method) x ;;
     match out_ch with
     | None => Some y
     | Some oc => Conv2d_forward (mkConv2d in_ch oc 1 bias) y
     end).
Proof.
  intros Hinit. apply SpatialRescaler_init_inv in Hinit.
  destruct Hinit as (_ & _ & Hs & Hmul & Hmode & Hremap & Hconv).
  unfold SpatialRescaler_encode. rewrite SpatialRescaler_forward_passes.
  rewrite Hs, Hmul, Hmode, Hremap, Hconv.
  destruct (passes (Z.to_nat n_stages)
              (fun t => interpolate t multiplier method) x) as [y|];
    [|reflexivity].
  destruct out_ch; reflexivity.
Qed.


Lemma interpolate_unsupported x m mode b c h w :
  shape x = [b; c; h; w] -> mode_supports mode 2 = false ->
  interpolate x m mode = None.
Proof.
  intros Hx Hmode. unfold interpolate. rewrite Hx. cbn [List.length].
  now rewrite Hmode.
Qed.

Lemma passes_add {A} (a b : nat) (step : A -> option A) (x : A) :
  passes (a + b) step x = (y <- passes a step x ;; passes b step y).
Proof.
  revert x. induction a as [|a IH]; intros x; cbn [passes Nat.add bind];
    [reflexivity|].
  destruct (step x) as [x1|]; cbn [bind]; [apply IH | reflexivity].
Qed.

(** Passes keep the batch and channel axes. *)
Lemma passes_keep_channels m mode (k : nat) :
  forall x y b c h w,
    shape x = [b; c; h; w] ->
    passes k (fun t => interpolate t m mode) x = Some y ->
    exists h' w', shape y = [b; c; h'; w'].
Proof.
  induction k as [|k IH]; intros x y b c h w Hx; cbn [passes].
  - intros [= <-]. eauto.
  - destruct (interpolate x m mode) as [x1|] eqn:H1; [|discriminate].
    cbn [bind]. intros Hrest.
    destruct (interpolate_inv _ _ _ _ _ _ _ _ Hx H1) as [Hx1 _].
    exact (IH _ _ _ _ _ _ Hx1 Hrest).
Qed.




(** X8.  Rescalers without channel remapping compose: one of [n1] stages
    followed by one of [n2] stages, with the same mode and multiplier, is
    the rescaler of [n1 + n2] stages, failures included. *)
Theorem X8_rescalers_compose :
  forall (n1 n2 : Z) (method : string) (multiplier : Q) (in_ch in_ch' in_ch'' : Z)
         (bias bias' bias'' : bool)
         (first second both : SpatialRescaler) (x : Tensor R),
    SpatialRescaler_init n1 method multiplier in_ch None bias = Some first ->
    SpatialRescaler_init n2 method multiplier in_ch' None bias' = Some second ->
    SpatialRescaler_init (n1 + n2) method multiplier in_ch'' None bias'' = Some both ->
    (y <- SpatialRescaler_encode first x ;; SpatialRescaler_encode second y)
    = SpatialRescaler_encode both x.
Proof.
  intros n1 n2 method multiplier in_ch in_ch' in_ch'' bias bias' bias''
         first second both x H1 H2 H12.
  rewrite (SpatialRescaler_encode_constructed _ _ _ _ _ _ _ x H1).
  rewrite (SpatialRescaler_encode_constructed _ _ _ _ _ _ _ x H12).
  apply SpatialRescaler_init_inv in H1. destruct H1 as (Hn1 & _).
  pose proof (SpatialRescaler_init_inv _ _ _ _ _ _ _ H2) as (Hn2 & _).
  rewrite Z2Nat.inj_add, passes_add by lia.
  destruct (passes (Z.to_nat n1) (fun t => interpolate t multiplier method) x)
    as [y|]; cbn [bind]; [|reflexivity].
  rewrite (SpatialRescaler_encode_constructed _ _ _ _ _ _ _ y H2).
  destruct (passes (Z.to_nat n2) (fun t => interpolate t multiplier method) y);
    reflexivity.
Qed.

(** X9.  The constructor accepts "linear" and "trilinear", but these modes
    are for one and three spatial axes: on a (B, C, H, W) input, [encode]
    with at least one stage fails. *)
Theorem X9_rescaler_modes_of_other_ranks :
  forall (n_stages : Z) (method : string) (multiplier : Q) (in_ch : Z)
         (out_ch : option Z) (bias : bool) (self : SpatialRescaler)
         (x : Tensor R) (b c h w : Z),
    SpatialRescaler_init n_stages method multiplier in_ch out_ch bias = Some self ->
    shape x = [b; c; h; w] ->
    1 <= n_stages ->
    method = "linear"%string \/ method = "trilinear"%string ->
    SpatialRescaler_encode self x = None.
Proof.
  intros n_stages method multiplier in_ch out_ch bias self x b c h w Hinit Hx Hn Hm.
  rewrite (SpatialRescaler_encode_constructed _ _ _ _ _ _ _ x Hinit).
  replace (Z.to_nat n_stages) with (S (Z.to_nat (n_stages - 1))) by lia.
  cbn [passes].
  rewrite (interpolate_unsupported x multiplier method b c h w Hx);
    [reflexivity|].
  destruct Hm as [-> | ->]; reflexivity.
Qed.



(** X11.  When [out_channels] is configured, [encode] fails on every
    (B, C, H, W) input whose channel count C differs from [in_channels]:
    the interpolation passes keep C, and the 1x1 convolution refuses it. *)
Theorem X11_rescaler_channel_mismatch :
  forall (n_stages : Z) (method : string) (multiplier : Q) (in_ch oc : Z)
         (bias : bool) (self : SpatialRescaler) (x : Tensor R) (b c h w : Z),
    SpatialRescaler_init n_stages method multiplier in_ch (Some oc) bias = Some self ->
    shape x = [b; c; h; w] ->
    c <> in_ch ->
    SpatialRescaler_encode self x = None.
Proof.
  intros n_stages method multiplier in_ch oc bias self x b c h w Hinit Hx Hc.
  rewrite (SpatialRescaler_encode_constructed _ _ _ _ _ _ _ x Hinit).
  destruct (passes (Z.to_nat n_stages) (fun t => interpolate t multiplier method) x)
    as [y|] eqn:Hp; [|reflexivity].
  cbn [bind].
  destruct (passes_keep_channels _ _ _ _ _ _ _ _ _ Hx Hp) as (h' & w' & Hy).
  unfold Conv2d_forward. rewrite Hy. cbn [in_channels].
  apply Z.eqb_neq in Hc. now rewrite Hc.
Qed.

(** ** FrozenClipImageEmbedder.forward *)

(** X12.  [FrozenClipImageEmbedder.forward] maps a non-empty batch of
    3-channel images of any size to one vector of the model's embedding
    dimension per image; with any other number of channels the
    normalization of [preprocess] refuses the input and nothing reaches the
    image tower. *)
Theorem X12_image_embedder_forward :
  forall (model : string) (jit : bool) (device : string) (antialias : bool)
         (x : Tensor R) (B C H W : Z),
    shape x = [B; C; H; W] -> 0 < B -> 0 < H -> 0 < W ->
    (C = 3 ->
     exists y : Tensor R,
       FrozenClipImageEmbedder_forward
         (FrozenClipImageEmbedder_init model jit device antialias) x = Some y
       /\ shape y = [B; embed_dim (clip_load model device jit)])
    /\ (C <> 3 ->
        FrozenClipImageEmbedder_preprocess
          (FrozenClipImageEmbedder_init model jit device antialias) x = None
        /\ FrozenClipImageEmbedder_forward
             (FrozenClipImageEmbedder_init model jit device antialias) x = None).
Proof.
  intros model jit device antialias x B C H W Hx _ HH HW.
  assert (Hres : kornia_resize x (224, 224) "bicubic" true antialias
                 = Some (mkTensor [B; C; 224; 224]
                           (resize_kernel (224, 224) "bicubic" true antialias x))).
  { unfold kornia_resize. rewrite Hx. cbn [rev app].
    apply Z.ltb_lt in HH, HW. rewrite HH, HW. reflexivity. }
  assert (Hpre : FrozenClipImageEmbedder_preprocess
                   (FrozenClipImageEmbedder_init model jit device antialias) x
                 = kornia_normalize
                     (tensor_map (fun v => ((v + 1.0) / 2.0)%R)
                        (mkTensor [B; C; 224; 224]
                           (resize_kernel (224, 224) "bicubic" true antialias x)))
                     clip_mean clip_std).
  { unfold FrozenClipImageEmbedder_preprocess.
    cbn [FrozenClipImageEmbedder_init register_buffer fie_antialias].
    rewrite Hres. reflexivity. }
  split.
  - intros ->. unfold FrozenClipImageEmbedder_forward. rewrite Hpre.
    eexists. split; reflexivity.
  - intros HC.
    assert (Hnone : FrozenClipImageEmbedder_preprocess
                      (FrozenClipImageEmbedder_init model jit device antialias) x
                    = None).
    { rewrite Hpre. unfold kornia_normalize, tensor_map. cbn [shape].
      change (Z.of_nat (List.length clip_mean)) with 3.
      apply Z.eqb_neq in HC. now rewrite HC. }
    split; [exact Hnone|].
    unfold FrozenClipImageEmbedder_forward. now rewrite Hnone.
Qed.

(** ** FrozenSDUNet: the range of steps and the construction *)


Lemma child_names_eval m : child_names (eval m) = child_names m.
Proof.
  destruct m as [n t ps bs cs]. unfold child_names. cbn [eval m_children].
  rewrite map_map. apply map_ext. intros [n' t' ps' bs' cs']. reflexivity.
Qed.

Lemma child_names_for_parameters b m :
  child_names (for_parameters_set_requires_grad b m) = child_names m.
Proof.
  destruct m as [n t ps bs cs]. unfold child_names.
  cbn [for_parameters_set_requires_grad m_children].
  rewrite map_map. apply map_ext. intros [n' t' ps' bs' cs']. reflexivity.
Qed.

Lemma filter_names_keep name (names : list string) :
  ~ In name names ->
  filter (fun n => negb (String.eqb n name)) names = names.
Proof.
  intros Hnot. induction names as [|n names IH]; [reflexivity|].
  cbn [filter]. destruct (String.eqb_spec n name) as [->|Hne]; cbn [negb].
  - exfalso. apply Hnot. left. reflexivity.
  - f_equal. apply IH. intros Hin. apply Hnot. right. exact Hin.
Qed.

Lemma in_filter_names name other (names : list string) :
  other <> name ->
  (In other (filter (fun n => negb (String.eqb n name)) names) <-> In other names).
Proof.
  intros Hne. rewrite filter_In. split; [intros [H _]; exact H|].
  intros H. split; [exact H|].
  destruct (String.eqb_spec other name) as [Heq|_]; [contradiction | reflexivity].
Qed.

Lemma not_in_filtered_names name (names : list string) :
  ~ In name (filter (fun n => negb (String.eqb n name)) names).
Proof.
  intros Hin. apply filter_In in Hin. destruct Hin as [_ Hneq].
  rewrite String.eqb_refl in Hneq. discriminate Hneq.
Qed.

Lemma child_names_filter name n t ps bs cs :
  child_names (mkModule n t ps bs
                 (filter (fun c => negb (String.eqb (m_name c) name)) cs))
  = filter (fun a => negb (String.eqb a name)) (child_names (mkModule n t ps bs cs)).
Proof.
  unfold child_names. cbn [m_children].
  induction cs as [|c cs' IH]; [reflexivity|].
  cbn [filter map]. destruct (String.eqb (m_name c) name); cbn [negb map];
    [|f_equal]; exact IH.
Qed.

Lemma del_attribute_spec name m attrs :
  match del_attribute name (m, attrs) with
  | Some (m', attrs') =>
      (In name (child_names m) \/ In name attrs)
      /\ child_names m'
         = filter (fun a => negb (String.eqb a name)) (child_names m)
      /\ (forall other, other <> name -> (In other attrs' <-> In other attrs))
  | None => ~ In name (child_names m) /\ ~ In name attrs
  end.
Proof.
  destruct m as [n t ps bs cs]. unfold del_attribute.
  destruct (existsb (fun c => String.eqb (m_name c) name) cs) eqn:Hex.
  - apply existsb_exists in Hex. destruct Hex as (c & Hc & Heq).
    apply String.eqb_eq in Heq.
    split; [|split].
    + left. unfold child_names. cbn [m_children]. apply in_map_iff. eauto.
    + apply child_names_filter.
    + intros other _. reflexivity.
  - assert (Hnot : ~ In name (child_names (mkModule n t ps bs cs))).
    { unfold child_names. cbn [m_children]. intros Hin.
      apply in_map_iff in Hin. destruct Hin as (c & Hc & Hin).
      assert (existsb (fun c => String.eqb (m_name c) name) cs = true).
      { apply existsb_exists. exists c. split; [exact Hin|].
        apply String.eqb_eq. exact Hc. }
      congruence. }
    destruct (existsb (String.eqb name) attrs) eqn:Hattr.
    + apply existsb_exists in Hattr. destruct Hattr as (a & Ha & Heq).
      apply String.eqb_eq in Heq. subst a.
      split; [right; exact Ha|]. split.
      * symmetry. apply filter_names_keep. exact Hnot.
      * intros other Hne. apply in_filter_names. exact Hne.
    + split; [exact Hnot|]. intros Hin.
      assert (existsb (String.eqb name) attrs = true).
      { apply existsb_exists. exists name. split; [exact Hin|].
        apply String.eqb_refl. }
      congruence.
Qed.

(** X14.  A FrozenSDUNet that its constructor returns holds a model without
    the submodules [first_stage_model] and [cond_stage_model], whose
    remaining submodules are those of the loaded model in their order, with
    every parameter frozen and every module in evaluation mode; the
    instance keeps the given checkpoint path and steps. *)
Theorem X14_sdunet_init_drops_and_freezes :
  forall (path : string) (config : option string) (timesteps : option (list Z))
         (self : FrozenSDUNet),
    FrozenSDUNet_init path config timesteps = Some self ->
    ~ In "first_stage_model"%string (child_names (ld_net (sdu_model self)))
    /\ ~ In "cond_stage_model"%string (child_names (ld_net (sdu_model self)))
    /\ (exists (loaded : LatentDiffusion) (attrs : list string),
           option_map (fun cfg => FrozenSDUNet_load_model_from_config cfg path false)
             (OmegaConf_load (match config with Some p => p | None => "None"%string end))
           = Some (Some (loaded, attrs))
           /\ child_names (ld_net (sdu_model self))
              = filter (fun n => negb (String.eqb n "cond_stage_model"))
                  (filter (fun n => negb (String.eqb n "first_stage_model"))
                     (child_names (ld_net loaded))))
    /\ all_frozen (FrozenSDUNet_module self)
    /\ in_eval_mode (ld_net (sdu_model self))
    /\ sdu_ckpt_path self = path
    /\ sdu_timesteps self = timesteps.
Proof.
  intros path config timesteps self. unfold FrozenSDUNet_init.
  destruct (OmegaConf_load _) as [cfg|]; [|discriminate]. cbn [bind option_map].
  destruct (FrozenSDUNet_load_model_from_config cfg path false)
    as [[loaded attrs]|]; [|discriminate].
  cbn [bind].
  pose proof (del_attribute_spec "first_stage_model" (ld_net loaded) attrs) as H1.
  destruct (del_attribute "first_stage_model" (ld_net loaded, attrs))
    as [[n1 attrs1]|]; [|discriminate].
  cbn [bind]. destruct H1 as (_ & Hn1 & _).
  pose proof (del_attribute_spec "cond_stage_model" n1 attrs1) as H2.
  destruct (del_attribute "cond_stage_model" (n1, attrs1)) as [[n2 attrs2]|];
    [|discriminate].
  cbn [bind fst]. destruct H2 as (_ & Hn2 & _).
  intros [= <-].
  assert (Hnames : child_names
                     (ld_net (sdu_model
                        (FrozenSDUNet_freeze
                           (mkFrozenSDUNet true path timesteps (ld_with_net loaded n2)))))
                   = filter (fun n => negb (String.eqb n "cond_stage_model"))
                       (filter (fun n => negb (String.eqb n "first_stage_model"))
                          (child_names (ld_net loaded)))).
  { cbn [FrozenSDUNet_freeze sdu_model ld_net ld_with_net].
    now rewrite child_names_for_parameters, child_names_eval, Hn2, Hn1. }
  split; [|split; [|split; [|split; [|split; [|split]]]]].
  - rewrite Hnames. intros Hin. apply filter_In in Hin. destruct Hin as [Hin _].
    exact (not_in_filtered_names _ _ Hin).
  - rewrite Hnames. apply not_in_filtered_names.
  - exists loaded, attrs. split; [reflexivity | exact Hnames].
  - frozen_wrapper.
  - wrapped_in_eval_mode.
  - reflexivity.
  - reflexivity.
Qed.

(** X15.  The constructor of FrozenSDUNet succeeds exactly when the
    configuration and the checkpoint load, the checkpoint has a
    ["state_dict"] entry holding a state dict, the model can be
    instantiated and takes the state dict, and the model has
    [first_stage_model] and [cond_stage_model] as submodules or plain
    attributes to delete; the keys reported missing or unexpected play no
    part. *)
Theorem X15_sdunet_init_succeeds_iff :
  forall (path : string) (config : option string) (timesteps : option (list Z)),
    (exists self, FrozenSDUNet_init path config timesteps = Some self)
    <-> exists cfg pl_sd sd model attrs loaded missing_unexpected,
          OmegaConf_load (match config with Some p => p | None => "None"%string end)
          = Some cfg
          /\ torch_load path = Some pl_sd
          /\ dict_lookup pl_sd "state_dict" = Some (StateDict sd)
          /\ instantiate_from_config cfg = Some (model, attrs)
          /\ load_state_dict_nonstrict model sd = Some (loaded, missing_unexpected)
          /\ (In "first_stage_model"%string (child_names (ld_net loaded))
              \/ In "first_stage_model"%string attrs)
          /\ (In "cond_stage_model"%string (child_names (ld_net loaded))
              \/ In "cond_stage_model"%string attrs).
Proof.
  intros path config timesteps. unfold FrozenSDUNet_init.
  assert (Hne : "cond_stage_model"%string <> "first_stage_model"%string)
    by discriminate.
  split.
  - intros [self Hinit].
    destruct (OmegaConf_load _) as [cfg|]; [|discriminate]. cbn [bind] in Hinit.
    unfold FrozenSDUNet_load_model_from_config in Hinit.
    destruct (torch_load path) as [pl_sd|]; [|discriminate]. cbn [bind] in Hinit.
    destruct (dict_lookup pl_sd "state_dict") as [[n|sd|]|] eqn:Hsd;
      try discriminate.
    cbn [bind] in Hinit.
    destruct (instantiate_from_config cfg) as [[model attrs]|] eqn:Hmodel;
      [|discriminate].
    cbn [bind] in Hinit.
    destruct (load_state_dict_nonstrict model sd) as [[loaded mu]|] eqn:Hload;
      [|discriminate].
    cbn [bind] in Hinit.
    pose proof (del_attribute_spec "first_stage_model" (ld_net loaded) attrs) as H1.
    destruct (del_attribute "first_stage_model" (ld_net loaded, attrs))
      as [[n1 attrs1]|]; [|discriminate].
    cbn [bind] in Hinit. destruct H1 as (Hin1 & Hn1 & Hattrs1).
    pose proof (del_attribute_spec "cond_stage_model" n1 attrs1) as H2.
    destruct (del_attribute "cond_stage_model" (n1, attrs1)) as [[n2 attrs2]|];
      [|discriminate].
    destruct H2 as (Hin2 & _).
    exists cfg, pl_sd, sd, model, attrs, loaded, mu.
    repeat split; auto.
    destruct Hin2 as [Hin2|Hin2].
    + left. rewrite Hn1 in Hin2. apply (in_filter_names _ _ _ Hne). exact Hin2.
    + right. apply (Hattrs1 _ Hne). exact Hin2.
  - intros (cfg & pl_sd & sd & model & attrs & loaded & mu & Hcfg & Hck & Hsd
            & Hmodel & Hload & Hin1 & Hin2).
    rewrite Hcfg. cbn [bind]. unfold FrozenSDUNet_load_model_from_config.
    rewrite Hck. cbn [bind]. rewrite Hsd. cbn [bind]. rewrite Hmodel. cbn [bind].
    rewrite Hload. cbn [bind].
    pose proof (del_attribute_spec "first_stage_model" (ld_net loaded) attrs) as H1.
    destruct (del_attribute "first_stage_model" (ld_net loaded, attrs))
      as [[n1 attrs1]|].
    + cbn [bind]. destruct H1 as (_ & Hn1 & Hattrs1).
      pose proof (del_attribute_spec "cond_stage_model" n1 attrs1) as H2.
      destruct (del_attribute "cond_stage_model" (n1, attrs1)) as [[n2 attrs2]|].
      * cbn [bind]. eexists. reflexivity.
      * exfalso. destruct H2 as [Hc Ha]. destruct Hin2 as [Hin2|Hin2].
        -- apply Hc. rewrite Hn1. apply (in_filter_names _ _ _ Hne). exact Hin2.
        -- apply Ha. apply (Hattrs1 _ Hne). exact Hin2.
    + exfalso. destruct H1 as [Hc Ha]. destruct Hin1 as [Hin1|Hin1];
        [exact (Hc Hin1) | exact (Ha Hin1)].
Qed.

(** ** FrozenCLIPTextEmbedder: which batches are refused *)

Lemma FrozenCLIPTextEmbedder_encode_fits (self : FrozenCLIPTextEmbedder) text :
  Forall (fun s => Z.of_nat (List.length (clip_bpe s)) + 2 <= 77) text ->
  0 <= fcte_n_repeat self ->
  exists z, FrozenCLIPTextEmbedder_encode self text = Some z.
Proof.
  intros Hfit Hk.
  destruct (clip_tokenize_fits clip_bpe text Hfit) as (tokens & Htok & Hshape).
  apply Z.ltb_ge in Hk.
  unfold FrozenCLIPTextEmbedder_encode, FrozenCLIPTextEmbedder_forward.
  rewrite Htok. cbn [bind]. unfold to_device, encode_text. rewrite Hshape.
  cbn [bind].
  destruct (fcte_normalize self).
  - unfold linalg_norm_dim1_keepdim. cbn [shape bind].
    unfold div_broadcast_rows. cbn [shape]. rewrite Z.eqb_refl. cbn [bind].
    unfold ndim. cbn [shape List.length]. cbn [Z.of_nat Pos.of_succ_nat Pos.succ Z.eqb Pos.eqb].
    unfold unsqueeze_middle. cbn [shape bind].
    unfold einops_repeat_b1d_bkd. cbn [shape]. rewrite Hk. eexists. reflexivity.
  - cbn [bind]. unfold ndim. cbn [shape List.length].
    cbn [Z.of_nat Pos.of_succ_nat Pos.succ Z.eqb Pos.eqb].
    unfold unsqueeze_middle. cbn [shape bind].
    unfold einops_repeat_b1d_bkd. cbn [shape]. rewrite Hk. eexists. reflexivity.
Qed.

(** X16.  [FrozenCLIPTextEmbedder.encode] refuses a non-empty batch exactly
    when one of its strings has more than 75 byte-pair tokens: one long
    caption makes the whole batch fail, whatever [max_length] was given. *)
Theorem X16_clip_text_embedder_refuses_iff :
  forall (self : FrozenCLIPTextEmbedder) (text : list string),
    1 <= fcte_n_repeat self ->
    text <> [] ->
    (FrozenCLIPTextEmbedder_encode self text = None
     <-> Exists (fun s => 75 < Z.of_nat (List.length (clip_bpe s))) text).
Proof.
  intros self text Hk _. split.
  - intros Hnone.
    destruct (Exists_dec (fun s => 75 < Z.of_nat (List.length (clip_bpe s))) text)
      as [Hex|Hnex]; [intros s; apply Z_lt_dec | exact Hex |].
    exfalso.
    destruct (FrozenCLIPTextEmbedder_encode_fits self text) as [z Hz];
      [|lia|congruence].
    apply Forall_forall. intros s Hs.
    destruct (Z_lt_le_dec 75 (Z.of_nat (List.length (clip_bpe s)))) as [Hlong|Hok];
      [|lia].
    exfalso. apply Hnex. apply Exists_exists. eauto.
  - intros Hex. apply Exists_exists in Hex. destruct Hex as (s & Hs & Hlong).
    unfold FrozenCLIPTextEmbedder_encode, FrozenCLIPTextEmbedder_forward.
    rewrite (clip_tokenize_too_long clip_bpe text s Hs); [reflexivity | lia].
Qed.

End Encoders.

(** * The theorems at work on the sample objects *)

(** C1 on the batch ["a cat", "a dog"] with 77 positions of 8 features. *)
Lemma C1_bert_embedder_shape_witness :
  exists z : Tensor R,
    BERTEmbedder_encode
      (BERTEmbedder_init char_level_encoder sample_transformer_kernel
                         8 2 30522 77 "cuda" true 0%R)
      (Strings ["a cat"; "a dog"]%string)
    = Some z
    /\ shape z = [2; 77; 8].
Proof.
  destruct (C1_bert_embedder_shape char_level_encoder sample_transformer_kernel
              8 2 30522 77 "cuda" 0%R ["a cat"; "a dog"]%string
              ltac:(lia) ltac:(discriminate))
    as (tokens & z & _ & _ & _ & _ & Henc & Hshape).
  exists z. split; [exact Henc | exact Hshape].
Defined.





(** C7 on a batch of two 64 x 48 images. *)
Lemma C7_image_preprocess_witness :
  exists y : Tensor R,
    FrozenClipImageEmbedder_preprocess sample_resize_kernel
      (FrozenClipImageEmbedder_init sample_clip_load "ViT-L/14" false "cpu" false)
      sample_image
    = Some y
    /\ shape y = [2; 3; 224; 224].
Proof.
  destruct (C7_image_preprocess sample_clip_load sample_resize_kernel
              "ViT-L/14" false "cpu" false sample_image 2 64 48
              eq_refl ltac:(lia) ltac:(lia))
    as (resized & y & _ & _ & _ & Hpre & Hshape & _).
  exists y. split; [exact Hpre | exact Hshape].
Defined.

(** C8 on two strings of two ids each: three positions with the end mark. *)
Lemma C8_t5_embedder_variable_length_witness :
  exists z : Tensor R,
    FrozenT5Embedder_encode
      (FrozenT5Embedder_init char_level_encoder sample_text_model "cuda" 77)
      ["ab"; "cd"]%string true
    = Some (mkTraced z false, true)
    /\ shape z = [2; 3; 4].
Proof.
  destruct (C8_t5_embedder_variable_length char_level_encoder sample_text_model
              "cuda" 77 ["ab"; "cd"]%string true 2%nat)
    as ((tokens & z & _ & _ & Henc & Hshape) & _).
  - discriminate.
  - repeat constructor.
  - exists z. split; [exact Henc | exact Hshape].
Defined.

(** C9 on the batch ["a cat", "a dog"] with 77 positions: the last one is
    padding. *)
Lemma C9_bert_tokenizer_encode_witness :
  exists tokens : Tensor Z,
    BERTTokenizer_encode (BERTTokenizer_init char_level_encoder "cuda" false 77)
                         ["a cat"; "a dog"]%string
    = Some (Tokens tokens)
    /\ shape tokens = [2; 77]
    /\ get tokens [1; 76] = 0.
Proof.
  destruct (C9_bert_tokenizer_encode char_level_encoder "cuda" false 77
              ["a cat"; "a dog"]%string ltac:(lia) ltac:(discriminate))
    as (tokens & _ & Hshape & Henc & Hpad & _).
  exists tokens. split; [exact Henc|]. split; [exact Hshape|].
  apply (Hpad 1%nat "a dog"%string 76 eq_refl).
  vm_compute. split; [discriminate | reflexivity].
Defined.

(** * The definitions run *)

Example SpatialRescaler_init_rejects_negative_stages :
  SpatialRescaler_init (-1) "bilinear" (1 # 2) 3 None false = None.
Proof. reflexivity. Qed.

Example SpatialRescaler_init_rejects_unknown_method :
  SpatialRescaler_init 1 "lanczos" (1 # 2) 3 None false = None.
Proof. reflexivity. Qed.

Example SpatialRescaler_init_accepts_defaults :
  SpatialRescaler_init 1 "bilinear" (1 # 2) 3 None false
  = Some (mkSpatialRescaler 1 (1 # 2) "bilinear" false None).
Proof. reflexivity. Qed.

Example freeze_on_sample_net :
  map requires_grad
    (parameters (for_parameters_set_requires_grad false (eval sample_net)))
  = [false; false]
  /\ training_flags (for_parameters_set_requires_grad false (eval sample_net))
     = [false; false]
  /\ map requires_grad (parameters sample_net) = [true; true].
Proof. repeat split. Qed.

Example text_embedder_starts_trainable :
  map requires_grad
    (parameters (FrozenCLIPTextEmbedder_module
                   (FrozenCLIPTextEmbedder_init sample_clip_load "ViT-L/14" "cuda"
                                                77 1 true)))
  = [true; true]
  /\ map requires_grad
       (parameters (FrozenCLIPEmbedder_module
                      (FrozenCLIPEmbedder_init
                         (fun _ => mkTokenizer char_level_encoder [49406] [49407] 49407)
                         sample_text_model "openai/clip-vit-large-patch14" "cuda" 77)))
     = [false; false].
Proof. split; reflexivity. Qed.

Example bert_row_of_a_cat :
  fixed_length_row (mkTokenizer char_level_encoder [101] [102] 0) 8 "a cat"
  = [101; 97; 32; 99; 97; 116; 102; 0]
  /\ fixed_length_row (mkTokenizer char_level_encoder [101] [102] 0) 5 "a cat"
     = [101; 97; 32; 99; 102].
Proof. split; reflexivity. Qed.

Example long_caption_has_76_words :
  List.length (word_level_encoder long_caption) = 76%nat.
Proof. reflexivity. Qed.

Example rescaler_halves_twice :
  option_map shape
    (SpatialRescaler_encode sample_interpolate_kernel sample_conv2d_kernel
       (mkSpatialRescaler 2 (1 # 2) "bilinear" true (Some (mkConv2d 3 8 1 false)))
       sample_image)
  = Some [2; 8; 16; 12].
Proof. reflexivity. Qed.

Example rescaler_rounds_down :
  option_map shape
    (SpatialRescaler_encode sample_interpolate_kernel sample_conv2d_kernel
       (mkSpatialRescaler 2 (1 # 2) "nearest" false None)
       (mkTensor [1; 3; 7; 5] (fun _ => 0%R)))
  = Some [1; 3; 1; 1].
Proof. reflexivity. Qed.

Example rescaler_without_stages_is_passthrough :
  SpatialRescaler_encode sample_interpolate_kernel sample_conv2d_kernel
    (mkSpatialRescaler 0 (1 # 2) "bilinear" false None) sample_image
  = Some sample_image.
Proof. reflexivity. Qed.

Example t5_cannot_stack_ragged_batch :
  FrozenT5Embedder_encode
    (FrozenT5Embedder_init char_level_encoder sample_text_model "cuda" 77)
    ["a"; "a dog"]%string true
  = None.
Proof. reflexivity. Qed.

Example clip_text_embedder_shape :
  option_map shape
    (FrozenCLIPTextEmbedder_encode word_level_encoder
       (FrozenCLIPTextEmbedder_init sample_clip_load "ViT-L/14" "cuda" 77 1 true)
       ["a cat"; "a dog"; "a bird on a wire"]%string)
  = Some [3; 1; 4].
Proof. reflexivity. Qed.

Example clip_text_embedder_refuses_long_caption :
  FrozenCLIPTextEmbedder_encode word_level_encoder
    (FrozenCLIPTextEmbedder_init sample_clip_load "ViT-L/14" "cuda" 77 1 true)
    [long_caption]
  = None.
Proof. reflexivity. Qed.

Example sdunet_fixed_step_draw :
  option_map (fun tg => map (fun i => get (fst tg) [i]) [0; 1])
    (FrozenSDUNet_draw_t sample_sdunet sample_latent (Some 250) sample_generator)
  = Some [250; 250]
  /\ option_map (fun tg => map (fun i => get (fst tg) [i]) [0; 1])
       (FrozenSDUNet_draw_t sample_sdunet sample_latent None sample_generator)
     = Some [11; 48].
Proof. split; reflexivity. Qed.

(** * The further properties at work on the sample objects *)


Lemma X2_class_embedder_rejects_witness :
  ClassEmbedder_forward
    (mkClassEmbedder "class" (mkEmbedding 10 4 (sample_embedding_weight 10 4)))
    sample_class_batch (Some "label"%string)
  = None
  /\ ClassEmbedder_forward
       (mkClassEmbedder "class" (mkEmbedding 4 4 (sample_embedding_weight 4 4)))
       sample_class_batch (Some "class"%string)
     = None.
Proof.
  split.
  - apply (proj1 (X2_class_embedder_rejects sample_embedding_weight 4 10 "class"
                    _ sample_class_batch eq_refl)).
    cbn. intros [H|[H|[]]]; discriminate H.
  - apply (proj1 (proj2 (proj2 (X2_class_embedder_rejects sample_embedding_weight
                                  4 4 "class" _ sample_class_batch eq_refl)))
             "class"%string _ 3 2 eq_refl eq_refl); cbn; lia.
Defined.

Lemma X3_bert_tokenizer_keeps_special_tokens_witness :
  exists tokens : Tensor Z,
    BERTTokenizer_forward (BERTTokenizer_init char_level_encoder "cuda" true 5)
                          ["a cat"]%string
    = Some tokens
    /\ get tokens [0; 0] = 101 /\ get tokens [0; 4] = 102.
Proof.
  destruct (X3_bert_tokenizer_keeps_special_tokens char_level_encoder "cuda" true 5
              ["a cat"]%string ltac:(lia) ltac:(discriminate))
    as (tokens & Hfwd & Hrows).
  destruct (Hrows 0%nat "a cat"%string eq_refl) as (_ & Hcls & Hsep & _).
  exists tokens. split; [exact Hfwd|]. split; [exact Hcls | exact Hsep].
Defined.

Lemma X4_bert_embedder_ignores_cut_tail_witness :
  BERTEmbedder_encode
    (BERTEmbedder_init char_level_encoder sample_transformer_kernel
                       8 2 30522 5 "cuda" true 0%R)
    (Strings ["a cat"; "dog"]%string)
  = BERTEmbedder_encode
      (BERTEmbedder_init char_level_encoder sample_transformer_kernel
                         8 2 30522 5 "cuda" true 0%R)
      (Strings ["a cup of tea"; "dogs"]%string).
Proof.
  apply (X4_bert_embedder_ignores_cut_tail char_level_encoder
           sample_transformer_kernel 8 2 30522 5 "cuda" 0%R);
    [lia | reflexivity].
Defined.

Lemma X5_frozen_clip_embedder_encode_witness :
  (exists z : Tensor R,
      FrozenCLIPEmbedder_encode
        (FrozenCLIPEmbedder_init sample_clip_tokenizer sample_text_model
                                 "openai/clip-vit-large-patch14" "cuda" 77)
        ["a cat"; "a dog"]%string true
      = Some (mkTraced z false)
      /\ shape z = [2; 77; 4])
  /\ FrozenCLIPEmbedder_encode
       (FrozenCLIPEmbedder_init sample_clip_tokenizer sample_text_model
                                "openai/clip-vit-large-patch14" "cuda" 100)
       ["a cat"; "a dog"]%string true
     = None.
Proof.
  split.
  - apply (proj1 (X5_frozen_clip_embedder_encode sample_clip_tokenizer
                    sample_text_model "openai/clip-vit-large-patch14" "cuda" 77
                    ["a cat"; "a dog"]%string true
                    ltac:(vm_compute; discriminate) ltac:(discriminate))).
    intros n [= <-]. lia.
  - apply (proj2 (X5_frozen_clip_embedder_encode sample_clip_tokenizer
                    sample_text_model "openai/clip-vit-large-patch14" "cuda" 100
                    ["a cat"; "a dog"]%string true
                    ltac:(vm_compute; discriminate) ltac:(discriminate))
             77 eq_refl).
    lia.
Defined.



Lemma X8_rescalers_compose_witness :
  (y <- SpatialRescaler_encode sample_interpolate_kernel sample_conv2d_kernel
          (mkSpatialRescaler 1 (1 # 2) "bilinear" false None) sample_image ;;
   SpatialRescaler_encode sample_interpolate_kernel sample_conv2d_kernel
     (mkSpatialRescaler 2 (1 # 2) "bilinear" false None) y)
  = SpatialRescaler_encode sample_interpolate_kernel sample_conv2d_kernel
      (mkSpatialRescaler 3 (1 # 2) "bilinear" false None) sample_image.
Proof.
  exact (X8_rescalers_compose sample_interpolate_kernel sample_conv2d_kernel
           1 2 "bilinear" (1 # 2) 3 3 3 false false false _ _ _ sample_image
           eq_refl eq_refl eq_refl).
Defined.

Lemma X9_rescaler_modes_of_other_ranks_witness :
  SpatialRescaler_init 1 "linear" (1 # 2) 3 None false
  = Some (mkSpatialRescaler 1 (1 # 2) "linear" false None)
  /\ SpatialRescaler_encode sample_interpolate_kernel sample_conv2d_kernel
       (mkSpatialRescaler 1 (1 # 2) "linear" false None) sample_image
     = None.
Proof.
  split; [reflexivity|].
  exact (X9_rescaler_modes_of_other_ranks sample_interpolate_kernel
           sample_conv2d_kernel 1 "linear" (1 # 2) 3 None false _ sample_image
           2 3 64 48 eq_refl eq_refl ltac:(lia) (or_introl eq_refl)).
Defined.


Lemma X11_rescaler_channel_mismatch_witness :
  SpatialRescaler_encode sample_interpolate_kernel sample_conv2d_kernel
    (mkSpatialRescaler 1 (1 # 2) "bilinear" true (Some (mkConv2d 4 8 1 false)))
    sample_image
  = None.
Proof.
  exact (X11_rescaler_channel_mismatch sample_interpolate_kernel
           sample_conv2d_kernel 1 "bilinear" (1 # 2) 4 8 false _ sample_image
           2 3 64 48 eq_refl eq_refl ltac:(lia)).
Defined.

Lemma X12_image_embedder_forward_witness :
  (exists y : Tensor R,
      FrozenClipImageEmbedder_forward sample_resize_kernel
        (FrozenClipImageEmbedder_init sample_clip_load "ViT-L/14" false "cpu" false)
        sample_image
      = Some y
      /\ shape y = [2; 4])
  /\ FrozenClipImageEmbedder_forward sample_resize_kernel
       (FrozenClipImageEmbedder_init sample_clip_load "ViT-L/14" false "cpu" false)
       (mkTensor [2; 1; 64; 48] (fun _ => 0%R))
     = None.
Proof.
  split.
  - exact (proj1 (X12_image_embedder_forward sample_clip_load sample_resize_kernel
                    "ViT-L/14" false "cpu" false sample_image 2 3 64 48
                    eq_refl ltac:(lia) ltac:(lia) ltac:(lia)) eq_refl).
  - apply (proj2 (X12_image_embedder_forward sample_clip_load sample_resize_kernel
                    "ViT-L/14" false "cpu" false
                    (mkTensor [2; 1; 64; 48] (fun _ => 0%R)) 2 1 64 48
                    eq_refl ltac:(lia) ltac:(lia) ltac:(lia))).
    lia.
Defined.


Lemma X14_sdunet_init_drops_and_freezes_witness :
  exists self : FrozenSDUNet,
    FrozenSDUNet_init string sample_omegaconf_load sample_torch_load
      sample_instantiate sample_load_state_dict
      "sd-v1-4-full-ema.ckpt" (Some "v1-inference.yaml"%string) (Some [0; 1000])
    = Some self
    /\ child_names (ld_net (sdu_model self)) = ["model"%string]
    /\ all_frozen (FrozenSDUNet_module self).
Proof.
  destruct (FrozenSDUNet_init string sample_omegaconf_load sample_torch_load
              sample_instantiate sample_load_state_dict
              "sd-v1-4-full-ema.ckpt" (Some "v1-inference.yaml"%string)
              (Some [0; 1000])) as [self|] eqn:Hinit; [|discriminate Hinit].
  exists self. split; [reflexivity|].
  destruct (X14_sdunet_init_drops_and_freezes string sample_omegaconf_load
              sample_torch_load sample_instantiate sample_load_state_dict
              _ _ _ self Hinit)
    as (_ & _ & (loaded & attrs & Hloaded & Hnames) & Hfrozen & _).
  split; [|exact Hfrozen].
  rewrite Hnames. injection Hloaded as <- _. reflexivity.
Defined.

Lemma X16_clip_text_embedder_refuses_iff_witness :
  FrozenCLIPTextEmbedder_encode word_level_encoder
    (FrozenCLIPTextEmbedder_init sample_clip_load "ViT-L/14" "cuda" 200 1 false)
    ["a cat"; long_caption]%string
  = None.
Proof.
  apply (proj2 (X16_clip_text_embedder_refuses_iff word_level_encoder
                  (FrozenCLIPTextEmbedder_init sample_clip_load "ViT-L/14" "cuda"
                                               200 1 false)
                  ["a cat"; long_caption]%string
                  ltac:(cbn; lia) ltac:(discriminate))).
  apply Exists_cons_tl, Exists_cons_hd. vm_compute. reflexivity.
Defined.

Example sdunet_init_needs_the_state_dict :
  FrozenSDUNet_init string sample_omegaconf_load
    (fun _ => Some [("global_step", GlobalStep 1)]%string)
    sample_instantiate sample_load_state_dict
    "sd-v1-4-full-ema.ckpt" (Some "v1-inference.yaml"%string) None
  = None
  /\ FrozenSDUNet_init string sample_omegaconf_load sample_torch_load
       (fun _ => Some (sample_diffusion, [])) sample_load_state_dict
       "sd-v1-4-full-ema.ckpt" (Some "v1-inference.yaml"%string) None
     = None
  /\ FrozenSDUNet_init string sample_omegaconf_load sample_torch_load
       sample_instantiate sample_load_state_dict
       "sd-v1-4-full-ema.ckpt" None None
     = None.
Proof. repeat split. Qed.

Example sdunet_init_deletes_a_plain_attribute :
  option_map (fun self => child_names (ld_net (sdu_model self)))
    (FrozenSDUNet_init string sample_omegaconf_load sample_torch_load
       (fun _ => Some (mkLatentDiffusion
                         (mkModule "ldm" true [] []
                            [mkModule "model" true [] [] [];
                             mkModule "first_stage_model" true [] [] []])
                         (ld_ops sample_diffusion) (ld_ema_ops sample_diffusion),
                       ["cond_stage_model"]%string))
       sample_load_state_dict
       "sd-v1-4-full-ema.ckpt" (Some "v1-inference.yaml"%string) None)
  = Some ["model"%string].
Proof. reflexivity. Qed.
